(** * NASA EONET / GIBS map front-ends: the data transformations of
      [NasaMap] (event feed) and [NasaGibsMap] (tile imagery).

    The development embeds the pure parts of the two components
    (category-key normalisation, the palette lookup, the query builder,
    the per-event normaliser, the tile URL template) and the effect that
    loads events into the map widget, and states the properties of the
    specification about them.

    Conventions of the embedding.
    - A JavaScript string is a sequence of UTF-16 code units. [Utf16.t]
      has them all, with [toLowerCase] on code points, surrogate pairs
      and the final sigma. The texts the components build and compare
      (keys, days, URLs) are kept as a [string]: the code units below 256
      (the Latin-1 range), one [ascii] each; on that range [toLowerCase]
      and the class [\s] of [JsString] are those of [Utf16]
      ([normalizeCategoryKey_widen]).
    - A JavaScript number that the code only stores and passes on (the
      coordinates, the magnitude) is a binary64 float.
    - A [Date] is its time value: milliseconds since the epoch, or [None]
      for the Invalid Date.
    - A computation that can throw returns a [Completion]. *)

From Stdlib Require Import ZArith List String Ascii Bool Lia Floats.
From Stdlib Require Import DecimalString.
From stdpp Require Import gmap strings.
Import ListNotations.

Local Open Scope string_scope.
Local Open Scope list_scope.
Local Open Scope Z_scope.

(** ** Completions: a value, or a thrown error with its [message]. *)

Inductive Completion (A : Type) : Type :=
| Normal (a : A)
| Throw (message : string).
Arguments Normal {A} a.
Arguments Throw {A} message.

Definition bindC {A B} (c : Completion A) (k : A -> Completion B) : Completion B :=
  match c with
  | Normal a => k a
  | Throw m => Throw m
  end.

Notation "'let!' x ':=' c 'in' k" := (bindC c (fun x => k))
  (at level 10, x name, c at level 100, k at level 200).

(** ** JavaScript strings on the Latin-1 range *)

Module JsString.

Definition codeUnit (c : ascii) : N := N_of_ascii c.

(** Code units with a different lower-case form: A-Z, and U+00C0-U+00DE
    without the multiplication sign U+00D7. *)
Definition isUpperCase (c : ascii) : bool :=
  let n := codeUnit c in
  ((65 <=? n) && (n <=? 90) ||
   (192 <=? n) && (n <=? 222) && negb (n =? 215))%N.

Definition lowerCodeUnit (c : ascii) : ascii :=
  if isUpperCase c then ascii_of_N (codeUnit c + 32) else c.

(** [String.prototype.toLowerCase] on a string of the Latin-1 range: no
    code unit below 256 has a lower-case form that depends on its
    neighbours or that is longer than one code unit. *)
Fixpoint toLowerCase (s : string) : string :=
  match s with
  | EmptyString => EmptyString
  | String c s' => String (lowerCodeUnit c) (toLowerCase s')
  end.

(** The class [\s] below 256: TAB, LF, VT, FF, CR, SPACE and NO-BREAK
    SPACE. *)
Definition isWhiteSpace (c : ascii) : bool :=
  let n := codeUnit c in
  ((9 <=? n) && (n <=? 13) || (n =? 32) || (n =? 160))%N.

(** The class [[()]]. *)
Definition isParen (c : ascii) : bool :=
  let n := codeUnit c in ((n =? 40) || (n =? 41))%N.

(** The pattern [\/]. *)
Definition isSlash (c : ascii) : bool := (codeUnit c =? 47)%N.

(** [s.replace(/C/g, '')] and [s.replace(/C+/g, '')] for a character
    class [C]: every code unit of the class is dropped, the others stay
    in order (a maximal run of [C] replaced by nothing is the same as
    each of its code units replaced by nothing). *)
Fixpoint removeAll (cls : ascii -> bool) (s : string) : string :=
  match s with
  | EmptyString => EmptyString
  | String c s' =>
      if cls c then removeAll cls s' else String c (removeAll cls s')
  end.

(** [String.prototype.includes]. *)
Fixpoint includes (hay needle : string) : bool :=
  String.prefix needle hay ||
  match hay with
  | EmptyString => false
  | String _ hay' => includes hay' needle
  end.

(** Every code unit of [s] satisfies [p]. *)
Fixpoint allUnits (p : ascii -> bool) (s : string) : bool :=
  match s with
  | EmptyString => true
  | String c s' => p c && allUnits p s'
  end.

(** [Number.prototype.toString] / template interpolation of a safe
    integer: its decimal digits. *)
Definition showInt (z : Z) : string := NilZero.string_of_int (Z.to_int z).

(** [String(n).padStart(width, '0')] for a non-negative integer. *)
Definition addLeadingZeros (n : Z) (width : nat) : string :=
  let digits := NilZero.string_of_uint (N.to_uint (Z.to_N n)) in
  String.concat "" (repeat "0" (width - String.length digits)) +:+ digits.

End JsString.
Import JsString.

(** ** Category keys and the palette (NasaMap) *)

(** [CATEGORY_COLORS]. *)
Definition CATEGORY_COLORS : gmap string string :=
  list_to_map
    [ ("wildfires", "#ff7b7b");
      ("severeStorms", "#ffd166");
      ("volcanoes", "#f94144");
      ("seaLakeIce", "#90e0ef");
      ("snow", "#a8dadc");
      ("dustHaze", "#e9c46a");
      ("earthquakes", "#f3722c");
      ("floods", "#43aa8b");
      ("manmade", "#bdb2ff");
      ("waterColor", "#48cae4");
      ("landslides", "#8ecae6") ].

(** [normalizeCategoryKey], on a title of the Latin-1 range. *)
Definition normalizeCategoryKey (title : string) : string :=
  removeAll isSlash (removeAll isParen (removeAll isWhiteSpace (toLowerCase title))).

(** What [CATEGORY_COLORS[key]] evaluates to. The object literal inherits
    from [Object.prototype], so a key that names one of its members finds
    a function or an object instead of a colour string. *)
Inductive PropertyValue : Type :=
| OwnString (s : string)
| Inherited (name : string).

Definition objectPrototypeMembers : list string :=
  [ "constructor"; "__proto__"; "hasOwnProperty"; "isPrototypeOf";
    "propertyIsEnumerable"; "toLocaleString"; "toString"; "valueOf";
    "__defineGetter__"; "__defineSetter__"; "__lookupGetter__";
    "__lookupSetter__" ].

Definition DEFAULT_COLOR : string := "#7aa2ff".

(** [CATEGORY_COLORS[categoryKey] || '#7aa2ff']: the empty string and
    [undefined] are falsy, every other value found is kept. *)
Definition colorFor (categoryKey : string) : PropertyValue :=
  match CATEGORY_COLORS !! categoryKey with
  | Some c => if String.eqb c "" then OwnString DEFAULT_COLOR else OwnString c
  | None =>
      if existsb (String.eqb categoryKey) objectPrototypeMembers
      then Inherited categoryKey
      else OwnString DEFAULT_COLOR
  end.

(** ** JavaScript strings in full: UTF-16 code units *)

Module Utf16.

(** A string: the sequence of its UTF-16 code units. *)
Definition t : Type := list N.

(** A string of the Latin-1 range, as the code units it stands for. *)
Fixpoint widen (s : string) : t :=
  match s with
  | EmptyString => []
  | String c s' => codeUnit c :: widen s'
  end.

(** Every code unit of [s] is below U+0100. *)
Definition isLatin1 (s : t) : Prop := Forall (fun u => (u < 256)%N) s.

Definition isHighSurrogate (u : N) : bool := ((0xD800 <=? u) && (u <=? 0xDBFF))%N.
Definition isLowSurrogate (u : N) : bool := ((0xDC00 <=? u) && (u <=? 0xDFFF))%N.
Definition isSurrogate (u : N) : bool := ((0xD800 <=? u) && (u <=? 0xDFFF))%N.

(** The code points of a string: a high surrogate followed by a low one
    is one code point, every other code unit is a code point by itself. *)
Fixpoint codePoints (s : t) : list N :=
  match s with
  | [] => []
  | u :: rest =>
      match rest with
      | v :: rest' =>
          if isHighSurrogate u && isLowSurrogate v
          then (0x10000 + (u - 0xD800) * 0x400 + (v - 0xDC00))%N :: codePoints rest'
          else u :: codePoints rest
      | [] => [u]
      end
  end.

(** The code units of a code point. *)
Definition codeUnitsOf (cp : N) : t :=
  if (cp <? 0x10000)%N then [cp]
  else [ (0xD800 + (cp - 0x10000) / 0x400)%N; (0xDC00 + (cp - 0x10000) mod 0x400)%N ].

(** Unicode's case tables. Spelled out below: Basic Latin and the
    Latin-1 Supplement (below U+0100), LATIN CAPITAL LETTER I WITH DOT
    ABOVE U+0130, GREEK CAPITAL LETTER SIGMA U+03A3, the Deseret capitals
    U+10400-U+10427 and the surrogate code points. The entries of every
    other code point (its lower-case mapping, whether it is cased,
    whether it is case-ignorable) are those of the Unicode version of the
    engine, [Tables]. *)
Record Tables : Type := {
  otherLower : N -> list N;
  otherCased : N -> bool;
  otherCaseIgnorable : N -> bool
}.

(** Code points below U+0100 with a lower-case form, which is 32 further:
    A-Z, and U+00C0-U+00DE without the multiplication sign U+00D7. *)
Definition isLatin1Upper (cp : N) : bool :=
  ((65 <=? cp) && (cp <=? 90) ||
   (192 <=? cp) && (cp <=? 222) && negb (cp =? 215))%N.

(** Letters of the Latin-1 range: A-Z, a-z, U+00AA, U+00B5, U+00BA,
    U+00C0-U+00FF without the signs U+00D7 and U+00F7. *)
Definition isLatin1Cased (cp : N) : bool :=
  ((65 <=? cp) && (cp <=? 90) || (97 <=? cp) && (cp <=? 122) ||
   (cp =? 0xAA) || (cp =? 0xB5) || (cp =? 0xBA) ||
   (0xC0 <=? cp) && (cp <=? 0xFF) && negb (cp =? 0xD7) && negb (cp =? 0xF7))%N.

(** Case-ignorable code points of the Latin-1 range: the apostrophe, the
    full stop, the colon, the circumflex, the grave accent, U+00A8,
    U+00AD, U+00AF, U+00B4, U+00B7 and U+00B8. *)
Definition isLatin1CaseIgnorable (cp : N) : bool :=
  existsb (N.eqb cp) [0x27; 0x2E; 0x3A; 0x5E; 0x60; 0xA8; 0xAD; 0xAF; 0xB4; 0xB7; 0xB8]%N.

(** The Deseret capitals; the small letters are 40 further. *)
Definition isDeseretCapital (cp : N) : bool := ((0x10400 <=? cp) && (cp <=? 0x10427))%N.

(** The code points whose entries are spelled out. *)
Definition isSpelledOut (cp : N) : bool :=
  ((cp <? 0x100) || (cp =? 0x130) || (cp =? 0x3A3))%N || isDeseretCapital cp || isSurrogate cp.

Section UnicodeTables.

Variable U : Tables.

(** The lower-case mapping of a code point, apart from its context. *)
Definition lowerOf (cp : N) : list N :=
  if (cp <? 0x100)%N then [if isLatin1Upper cp then (cp + 32)%N else cp]
  else if (cp =? 0x130)%N then [0x69; 0x307]%N
  else if (cp =? 0x3A3)%N then [0x3C3]%N
  else if isDeseretCapital cp then [(cp + 0x28)%N]
  else if isSurrogate cp then [cp]
  else otherLower U cp.

(** The property Cased. *)
Definition cased (cp : N) : bool :=
  if (cp <? 0x100)%N then isLatin1Cased cp
  else if ((cp =? 0x130) || (cp =? 0x3A3))%N || isDeseretCapital cp then true
  else if isSurrogate cp then false
  else otherCased U cp.

(** The property Case_Ignorable. *)
Definition caseIgnorable (cp : N) : bool :=
  if (cp <? 0x100)%N then isLatin1CaseIgnorable cp
  else if isSpelledOut cp then false
  else otherCaseIgnorable U cp.

(** A sequence of case-ignorable code points and then a cased one, from
    the start of [cps]. *)
Fixpoint reachesCased (cps : list N) : bool :=
  match cps with
  | [] => false
  | cp :: rest => cased cp || caseIgnorable cp && reachesCased rest
  end.

(** The condition Final_Sigma, for the code points [before] (nearest
    first) and [after] a capital sigma. *)
Definition finalSigma (before after : list N) : bool :=
  reachesCased before && negb (reachesCased after).

(** Lower-casing the code points [cps] that come after [before] (nearest
    first). *)
Fixpoint lowerFrom (before cps : list N) : list N :=
  match cps with
  | [] => []
  | cp :: rest =>
      (if (cp =? 0x3A3)%N && finalSigma before rest then [0x3C2]%N else lowerOf cp)
      ++ lowerFrom (cp :: before) rest
  end.

(** [String.prototype.toLowerCase]. *)
Definition toLowerCase (s : t) : t :=
  flat_map codeUnitsOf (lowerFrom [] (codePoints s)).

End UnicodeTables.

(** The class [\s]: the white space and the line terminators of
    ECMAScript. *)
Definition isWhiteSpace (u : N) : bool :=
  ((9 <=? u) && (u <=? 13) || (u =? 0x20) || (u =? 0xA0) || (u =? 0x1680) ||
   (0x2000 <=? u) && (u <=? 0x200A) || (u =? 0x2028) || (u =? 0x2029) ||
   (u =? 0x202F) || (u =? 0x205F) || (u =? 0x3000) || (u =? 0xFEFF))%N.

Definition isParen (u : N) : bool := ((u =? 40) || (u =? 41))%N.

Definition isSlash (u : N) : bool := (u =? 47)%N.

Definition isStripped (u : N) : bool := isWhiteSpace u || isParen u || isSlash u.

(** [s.replace(/C/g, '')] and [s.replace(/C+/g, '')] for a class [C] of
    code units. *)
Definition removeAll (cls : N -> bool) (s : t) : t :=
  List.filter (fun u => negb (cls u)) s.

(** [normalizeCategoryKey], on any title. *)
Definition normalizeCategoryKey (U : Tables) (title : t) : t :=
  removeAll isSlash (removeAll isParen (removeAll isWhiteSpace (toLowerCase U title))).

(** Tables without further entries. *)
Definition noFurtherEntries : Tables :=
  {| otherLower := fun cp => [cp];
     otherCased := fun _ => false;
     otherCaseIgnorable := fun _ => false |}.

End Utf16.

(** ** Dates: the time value, its local calendar fields, date-fns [format] *)

Module JsDate.

Definition msPerDay : Z := 86400000.
Definition msPerHour : Z := 3600000.
Definition msPerMinute : Z := 60000.

(** Day number (days since 1970-01-01) of a proleptic Gregorian date. *)
Definition daysFromCivil (y m d : Z) : Z :=
  let y' := if m <=? 2 then y - 1 else y in
  let era := y' / 400 in
  let yoe := y' mod 400 in
  let mp := if 2 <? m then m - 3 else m + 9 in
  let doy := (153 * mp + 2) / 5 + d - 1 in
  let doe := yoe * 365 + yoe / 4 - yoe / 100 + doy in
  era * 146097 + doe - 719468.

(** Year, month (1-12) and day of the month of a day number. *)
Definition civilFromDays (z : Z) : Z * Z * Z :=
  let z' := z + 719468 in
  let era := z' / 146097 in
  let doe := z' mod 146097 in
  let yoe := (doe - doe / 1460 + doe / 36524 - doe / 146096) / 365 in
  let doy := doe - (365 * yoe + yoe / 4 - yoe / 100) in
  let mp := (5 * doy + 2) / 153 in
  let d := doy - (153 * mp + 2) / 5 + 1 in
  let m := if mp <? 10 then mp + 3 else mp - 9 in
  let y := yoe + era * 400 in
  (if m <=? 2 then y + 1 else y, m, d).

(** The fields [getFullYear], [getMonth]+1, [getDate], [getHours],
    [getMinutes] of a local time value. *)
Record Fields : Type := mkFields {
  fullYear : Z; month : Z; dayOfMonth : Z; hours : Z; minutes : Z }.

Definition fieldsOf (localTime : Z) : Fields :=
  let '(y, m, d) := civilFromDays (localTime / msPerDay) in
  let inDay := localTime mod msPerDay in
  mkFields y m d (inDay / msPerHour) ((inDay mod msPerHour) / msPerMinute).

(** The two format strings the components pass to [format]. *)
Inductive Pattern : Type :=
| yyyy_MM_dd          (* 'yyyy-MM-dd' *)
| yyyy_MM_dd_HH_mm.   (* 'yyyy-MM-dd HH:mm' *)

(** date-fns renders the year token from the era year:
    [signedYear > 0 ? signedYear : 1 - signedYear]. *)
Definition eraYear (signedYear : Z) : Z :=
  if 0 <? signedYear then signedYear else 1 - signedYear.

Definition render (f : Fields) (p : Pattern) : string :=
  let day :=
    addLeadingZeros (eraYear (fullYear f)) 4 +:+ "-" +:+
    addLeadingZeros (month f) 2 +:+ "-" +:+
    addLeadingZeros (dayOfMonth f) 2 in
  match p with
  | yyyy_MM_dd => day
  | yyyy_MM_dd_HH_mm =>
      day +:+ " " +:+ addLeadingZeros (hours f) 2 +:+ ":" +:+
      addLeadingZeros (minutes f) 2
  end.

End JsDate.
Import JsDate.

(** A [Date] object: its time value, [None] when it is NaN. *)
Definition Date : Type := option Z.

(** ** [URLSearchParams] *)

Module URLSearchParams.

Definition t : Type := list (string * string).

Definition empty : t := [].

(** [set(name, value)]: the first pair named [name] takes the value and
    the later ones are removed; without such a pair one is appended. *)
Fixpoint set (name value : string) (l : t) : t :=
  match l with
  | [] => [(name, value)]
  | (n, v) :: rest =>
      if String.eqb n name
      then (name, value) :: List.filter (fun p => negb (String.eqb (fst p) name)) rest
      else (n, v) :: set name value rest
  end.

Definition has (name : string) (l : t) : bool :=
  existsb (fun p => String.eqb (fst p) name) l.

(** Code units the urlencoded serializer leaves as they are:
    ASCII letters and digits, [*], [-], [.] and [_]. *)
Definition isUnreserved (c : ascii) : bool :=
  let n := codeUnit c in
  ((48 <=? n) && (n <=? 57) || (65 <=? n) && (n <=? 90) ||
   (97 <=? n) && (n <=? 122) ||
   (n =? 42) || (n =? 45) || (n =? 46) || (n =? 95))%N.

Definition hexDigit (n : N) : ascii :=
  ascii_of_N (if (n <? 10)%N then 48 + n else 55 + n)%N.

Definition percentByte (b : N) : string :=
  String "%" (String (hexDigit (N.shiftr b 4))
                     (String (hexDigit (N.land b 15)) EmptyString)).

(** UTF-8 bytes of a code unit below 256. *)
Definition utf8 (c : ascii) : list N :=
  let n := codeUnit c in
  if (n <? 128)%N then [n]
  else [N.lor 192 (N.shiftr n 6); N.lor 128 (N.land n 63)].

Definition encodeUnit (c : ascii) : string :=
  if (codeUnit c =? 32)%N then "+"
  else if isUnreserved c then String c EmptyString
  else String.concat "" (map percentByte (utf8 c)).

Fixpoint encode (s : string) : string :=
  match s with
  | EmptyString => EmptyString
  | String c s' => encodeUnit c +:+ encode s'
  end.

(** [toString()]: [name=value] pairs joined by [&]. *)
Definition toString (l : t) : string :=
  String.concat "&" (map (fun p => encode (fst p) +:+ "=" +:+ encode (snd p)) l).

End URLSearchParams.

(** ** Tile URL builder (NasaGibsMap) *)

Definition GIBS_ENDPOINT : string :=
  "https://gibs.earthdata.nasa.gov/wmts/epsg3857/best/wmts.cgi".

(** [buildTileUrl]. *)
Definition buildTileUrl (layer date : string) : string :=
  GIBS_ENDPOINT +:+ "?service=WMTS&request=GetTile&version=1.0.0&layer=" +:+
  layer +:+
  "&style=default&tilematrixset=GoogleMapsCompatible_Level&format=image%2Fjpeg&time=" +:+
  date +:+ "&tilematrix={z}&tilerow={y}&tilecol={x}".

(** ** The EONET feed types (NasaMap) *)

Definition number : Type := PrimFloat.float.

Inductive GeometryType : Type := Point | Polygon.

Definition isPoint (ty : GeometryType) : bool :=
  match ty with Point => true | Polygon => false end.

(** The [coordinates] member of a geometry as it arrives in the JSON:
    [number[]], [number[][][]], or a value [Array.isArray] rejects
    (the member is missing or is not an array). *)
Inductive Coordinates : Type :=
| Position (c : list number)
| Rings (c : list (list (list number)))
| NotAnArray.

Definition isArray (c : Coordinates) : bool :=
  match c with NotAnArray => false | _ => true end.

Module EonetGeometry.
Record t : Type := make {
  magnitudeValue : option number;
  magnitudeUnit : option string;
  date : string;
  type : GeometryType;
  coordinates : Coordinates }.
End EonetGeometry.

Module EventCategory.
Record t : Type := make { id : Z; title : string }.
End EventCategory.

Module EonetEvent.
Record t : Type := make {
  id : string;
  title : string;
  closed : option string;
  categories : list EventCategory.t;
  geometry : list EonetGeometry.t }.
End EonetEvent.

Record EventsResponse : Type := { events : list EonetEvent.t }.

(** The GeoJSON feature built per event:
    [{ type: 'Feature', geometry: { type: 'Point', coordinates }, properties }]. *)
Module Feature.
Record Properties : Type := makeProperties {
  id : string;
  title : string;
  category : string;
  categoryKey : string;
  color : PropertyValue;
  latestDate : string }.
Record t : Type := make {
  coordinates : Coordinates;
  properties : Properties }.
End Feature.

(** [Array.prototype.flatMap] with a callback that can throw: the events
    are visited in order and the first throw ends the traversal. *)
Fixpoint flatMap {A B : Type} (f : A -> Completion (list B)) (l : list A)
  : Completion (list B) :=
  match l with
  | [] => Normal []
  | x :: rest =>
      let! ys := f x in
      let! zs := flatMap f rest in
      Normal (ys ++ zs)
  end.

(** ** The response of the network to one request *)

Inductive Body (T : Type) : Type :=
| Malformed (message : string)   (* [res.json()] rejects *)
| Parsed (data : T).
Arguments Malformed {T} message.
Arguments Parsed {T} data.

Inductive FetchOutcome (T : Type) : Type :=
| Rejected (message : string)    (* [fetch] rejects: no response *)
| Response (status : Z) (body : Body T).
Arguments Rejected {T} message.
Arguments Response {T} status body.

(** [Response.ok]. *)
Definition ok (status : Z) : bool := (200 <=? status) && (status <=? 299).

(** [fetchJson]. *)
Definition fetchJson {T : Type} (outcome : FetchOutcome T) : Completion T :=
  match outcome with
  | Rejected message => Throw message
  | Response status body =>
      if negb (ok status) then Throw ("HTTP " +:+ showInt status)
      else match body with
           | Malformed message => Throw message
           | Parsed data => Normal data
           end
  end.

(** ** [NasaMap]: query builder, event normaliser, loading effect *)

Definition EONET_BASE : string := "https://eonet.gsfc.nasa.gov/api/v3".

Section NasaMap.

(** The environment: the offset of local time from UTC at a time value
    (milliseconds), and the parser behind [new Date(string)]. *)
Variable localOffset : Z -> Z.
Variable parseDate : string -> Date.

(** The map widget's [LngLatBounds]: an empty bounds and [extend], which
    can reject a coordinate by throwing. *)
Variable LngLatBounds : Type.
Variable emptyBounds : LngLatBounds.
Variable extend : LngLatBounds -> Coordinates -> Completion LngLatBounds.

(** date-fns [format]: throws a [RangeError] on the Invalid Date and
    renders the local calendar fields otherwise. *)
Definition format (d : Date) (p : Pattern) : Completion string :=
  match d with
  | None => Throw "Invalid time value"
  | Some t => Normal (render (fieldsOf (t + localOffset t)) p)
  end.

(** The local calendar day (year, month, day) a [Date] shows. *)
Definition localDay (t : Z) : Z * Z * Z :=
  civilFromDays ((t + localOffset t) / msPerDay).

(** The [URLSearchParams] built in [queryUrl]. The tests [if (start)]
    and [if (end)] are on [Date] objects, which are always truthy. *)
Definition queryParams (start end_ : Date) (selectedCategory : string)
  : Completion URLSearchParams.t :=
  let params := URLSearchParams.empty in
  let params := URLSearchParams.set "status" "open" params in
  let! s := format start yyyy_MM_dd in
  let params := URLSearchParams.set "start" s params in
  let! e := format end_ yyyy_MM_dd in
  let params := URLSearchParams.set "end" e params in
  let params :=
    if String.eqb selectedCategory "" then params
    else URLSearchParams.set "category" selectedCategory params in
  Normal (URLSearchParams.set "limit" "250" params).

(** [queryUrl]. *)
Definition queryUrl (start end_ : Date) (selectedCategory : string)
  : Completion string :=
  let! params := queryParams start end_ selectedCategory in
  Normal (EONET_BASE +:+ "/events?" +:+ URLSearchParams.toString params).

(** [[...ev.geometry].reverse().find(g => g.type === 'Point')]. *)
Definition lastPoint (ev : EonetEvent.t) : option EonetGeometry.t :=
  find (fun g => isPoint (EonetGeometry.type g)) (rev (EonetEvent.geometry ev)).

(** [ev.categories[0]?.title || 'Unknown']. *)
Definition primaryCategory (ev : EonetEvent.t) : string :=
  match EonetEvent.categories ev with
  | [] => "Unknown"
  | c :: _ =>
      if String.eqb (EventCategory.title c) "" then "Unknown"
      else EventCategory.title c
  end.

(** The callback of [events.flatMap]. *)
Definition eventToFeatures (ev : EonetEvent.t) : Completion (list Feature.t) :=
  match lastPoint ev with
  | None => Normal []
  | Some lp =>
      if negb (isArray (EonetGeometry.coordinates lp)) then Normal []
      else
        let coord := EonetGeometry.coordinates lp in
        let cat := primaryCategory ev in
        let categoryKey := normalizeCategoryKey cat in
        let color := colorFor categoryKey in
        let! latestDate :=
          format (parseDate (EonetGeometry.date lp)) yyyy_MM_dd_HH_mm in
        Normal [ Feature.make coord
                   (Feature.makeProperties (EonetEvent.id ev) (EonetEvent.title ev)
                      cat categoryKey color latestDate) ]
  end.

(** The application state the loading effect reads and writes: the map
    behind [mapRef] with the data of its source ['eonet-events'] and the
    [fitBounds] requests it has received (oldest first), and the React
    state [loading], [error], [eventCount]. *)
Record FitBoundsCall : Type := {
  bounds : LngLatBounds; padding : Z; duration : Z }.

Record MapWidget : Type := {
  eonetEvents : list Feature.t;
  fitBoundsCalls : list FitBoundsCall }.

Record AppState : Type := {
  mapRef : option MapWidget;
  loading : bool;
  error : option string;
  eventCount : nat }.

(** Effects on the application state that can throw. *)
Definition Eff (A : Type) : Type := AppState -> AppState * Completion A.

Definition ret {A} (a : A) : Eff A := fun st => (st, Normal a).

Definition bind {A B} (m : Eff A) (k : A -> Eff B) : Eff B :=
  fun st =>
    match m st with
    | (st', Normal a) => k a st'
    | (st', Throw e) => (st', Throw e)
    end.

Definition lift {A} (c : Completion A) : Eff A := fun st => (st, c).

(** [p.catch(handler)] *)
Definition catch (m : Eff unit) (handler : string -> Eff unit) : Eff unit :=
  fun st =>
    match m st with
    | (st', Normal a) => (st', Normal a)
    | (st', Throw e) => handler e st'
    end.

(** [p.finally(always)] *)
Definition finally (m : Eff unit) (always : Eff unit) : Eff unit :=
  fun st =>
    let '(st', r) := m st in
    match always st' with
    | (st'', Normal _) => (st'', r)
    | (st'', Throw e) => (st'', Throw e)
    end.

Notation "'do' x '<-' m ';' k" := (bind m (fun x => k))
  (at level 10, x name, m at level 100, k at level 200).
Notation "m ';;' k" := (bind m (fun _ => k))
  (at level 100, k at level 200, right associativity).

Definition setLoading (b : bool) : Eff unit :=
  fun st => ({| mapRef := mapRef st; loading := b; error := error st;
                eventCount := eventCount st |}, Normal tt).

Definition setError (e : option string) : Eff unit :=
  fun st => ({| mapRef := mapRef st; loading := loading st; error := e;
                eventCount := eventCount st |}, Normal tt).

Definition setEventCount (n : nat) : Eff unit :=
  fun st => ({| mapRef := mapRef st; loading := loading st; error := error st;
                eventCount := n |}, Normal tt).

(** A method call on [mapRef.current!]: a [TypeError] when it is null. *)
Definition onMap (method : MapWidget -> MapWidget) : Eff unit :=
  fun st =>
    match mapRef st with
    | None => (st, Throw "Cannot read properties of null")
    | Some map =>
        ({| mapRef := Some (method map); loading := loading st;
            error := error st; eventCount := eventCount st |}, Normal tt)
    end.

(** [getSource('eonet-events').setData(collection)] *)
Definition setData (features : list Feature.t) (map : MapWidget) : MapWidget :=
  {| eonetEvents := features; fitBoundsCalls := fitBoundsCalls map |}.

(** [fitBounds(bounds, { padding, duration })] *)
Definition fitBounds (b : LngLatBounds) (pad dur : Z) (map : MapWidget) : MapWidget :=
  {| eonetEvents := eonetEvents map;
     fitBoundsCalls := fitBoundsCalls map ++
                       [ {| bounds := b; padding := pad; duration := dur |} ] |}.

(** [for (const f of features) bounds.extend(f.geometry.coordinates)] *)
Fixpoint extendAll (b : LngLatBounds) (features : list Feature.t)
  : Completion LngLatBounds :=
  match features with
  | [] => Normal b
  | f :: rest =>
      let! b' := extend b (Feature.coordinates f) in
      extendAll b' rest
  end.

(** The [.then] callback of the loading effect. *)
Definition onEvents (response : EventsResponse) : Eff unit :=
  do features <- lift (flatMap eventToFeatures (events response));
  onMap (setData features) ;;
  setEventCount (length features) ;;
  if (0 <? length features)%nat then
    do b <- lift (extendAll emptyBounds features);
    onMap (fitBounds b 40 800)
  else ret tt.

(** The [.catch] callback: [setError(err.message || 'Falha ao carregar dados')]. *)
Definition onError (message : string) : Eff unit :=
  setError (Some (if String.eqb message "" then "Falha ao carregar dados"
                  else message)).

(** What runs when the request of the loading effect settles. *)
Definition settle (outcome : FetchOutcome EventsResponse) : Eff unit :=
  finally
    (catch (do response <- lift (fetchJson outcome); onEvents response) onError)
    (setLoading false).

(** The part of the loading effect that runs with the effect: nothing
    without a map; otherwise [loading] is set and [error] is cleared, and
    the request is in flight. *)
Definition beginLoad (st : AppState) : AppState :=
  match mapRef st with
  | None => st
  | Some _ => fst ((setLoading true ;; setError None) st)
  end.

(** The state after the callbacks of a request that settles when the
    application is in the state [st]. *)
Definition settled (outcome : FetchOutcome EventsResponse) (st : AppState)
  : AppState :=
  fst (settle outcome st).

(** A run of the loading effect during which nothing else writes the
    state: nothing without a map; otherwise [loading] is set, [error] is
    cleared, and the request is issued and settles. *)
Definition loadEvents (outcome : FetchOutcome EventsResponse) (st : AppState)
  : AppState :=
  match mapRef st with
  | None => st
  | Some _ =>
      fst ((setLoading true ;; setError None ;; settle outcome) st)
  end.

End NasaMap.

Arguments bounds {LngLatBounds} _.
Arguments padding {LngLatBounds} _.
Arguments duration {LngLatBounds} _.
Arguments Build_FitBoundsCall {LngLatBounds} _ _ _.
Arguments eonetEvents {LngLatBounds} _.
Arguments fitBoundsCalls {LngLatBounds} _.
Arguments Build_MapWidget {LngLatBounds} _ _.
Arguments mapRef {LngLatBounds} _.
Arguments loading {LngLatBounds} _.
Arguments error {LngLatBounds} _.
Arguments eventCount {LngLatBounds} _.
Arguments Build_AppState {LngLatBounds} _ _ _ _.
Arguments extendAll {LngLatBounds} _ _ _.
Arguments settle _ _ {LngLatBounds} _ _ _ _.
Arguments loadEvents _ _ {LngLatBounds} _ _ _ _.
Arguments beginLoad {LngLatBounds} _.
Arguments settled _ _ {LngLatBounds} _ _ _ _.

(** ** Notions of the specification *)

(** The code units [normalizeCategoryKey] strips. *)
Definition isStripped (c : ascii) : bool :=
  isWhiteSpace c || isParen c || isSlash c.


(** The palette keys written in camelCase, and the same words in lower case. *)
Definition camelCaseKeys : list string :=
  [ "severeStorms"; "seaLakeIce"; "dustHaze"; "waterColor" ].

Definition multiWordKeys : list string :=
  [ "severestorms"; "sealakeice"; "dusthaze"; "watercolor" ].

(** The palette colours stored under the camelCase keys. *)
Definition camelCaseColors : list string :=
  [ "#ffd166"; "#90e0ef"; "#e9c46a"; "#48cae4" ].

(** An event the normaliser can represent: its selected Point entry has
    array coordinates. *)
Definition representable (ev : EonetEvent.t) : bool :=
  match lastPoint ev with
  | Some lp => isArray (EonetGeometry.coordinates lp)
  | None => false
  end.

(** The feature of an event, from the entry selected and the date text. *)
Definition featureOf (ev : EonetEvent.t) (lp : EonetGeometry.t) (latest : string)
  : Feature.t :=
  Feature.make (EonetGeometry.coordinates lp)
    (Feature.makeProperties (EonetEvent.id ev) (EonetEvent.title ev)
       (primaryCategory ev) (normalizeCategoryKey (primaryCategory ev))
       (colorFor (normalizeCategoryKey (primaryCategory ev))) latest).

(** A request that fails, with the message of the error it fails with:
    no response, a status outside 200-299, or a body that is not JSON. *)
Inductive FetchFailed {T : Type} : FetchOutcome T -> string -> Prop :=
| failed_transport (message : string) :
    FetchFailed (Rejected message) message
| failed_status (status : Z) (body : Body T) :
    ok status = false ->
    FetchFailed (Response status body) ("HTTP " +:+ showInt status)
| failed_parse (status : Z) (message : string) :
    ok status = true ->
    FetchFailed (Response status (Malformed message)) message.

(** [g] is a Point entry of [gs] whose date is the most recent among the
    Point entries of [gs], whatever their order. *)
Definition MostRecentPoint (parseDate : string -> Date)
    (gs : list EonetGeometry.t) (g : EonetGeometry.t) : Prop :=
  In g gs /\ EonetGeometry.type g = Point /\
  exists t, parseDate (EonetGeometry.date g) = Some t /\
    forall h t', In h gs -> EonetGeometry.type h = Point ->
      parseDate (EonetGeometry.date h) = Some t' -> t' <= t.

(** The entries of [gs] are in chronological order. *)
Fixpoint Chronological (parseDate : string -> Date)
    (gs : list EonetGeometry.t) : Prop :=
  match gs with
  | [] => True
  | g :: rest =>
      (forall h t t', In h rest ->
         parseDate (EonetGeometry.date g) = Some t ->
         parseDate (EonetGeometry.date h) = Some t' -> t <= t') /\
      Chronological parseDate rest
  end.

(** ** An environment to run the scenarios in *)

Module Scenario.

(** Local time is UTC. *)
Definition utc (t : Z) : Z := 0.

(** Local time is three hours behind UTC. *)
Definition brasilia (t : Z) : Z := -3 * msPerHour.

Definition digit (c : ascii) : option Z :=
  let n := codeUnit c in
  if ((48 <=? n) && (n <=? 57))%N then Some (Z.of_N n - 48) else None.

Definition isLeapYear (y : Z) : bool :=
  (y mod 4 =? 0) && (negb (y mod 100 =? 0) || (y mod 400 =? 0)).

Definition daysInMonth (y m : Z) : Z :=
  if m =? 2 then (if isLeapYear y then 29 else 28)
  else if (m =? 4) || (m =? 6) || (m =? 9) || (m =? 11) then 30 else 31.

(** A date parser that reads the date-only form [YYYY-MM-DD] of the
    ECMAScript date-time string format as UTC midnight, and gives the
    Invalid Date for every other string. *)
Definition parseDateOnly (s : string) : Date :=
  match s with
  | String y1 (String y2 (String y3 (String y4 (String sep1
      (String m1 (String m2 (String sep2 (String d1 (String d2 EmptyString))))))))) =>
      match digit y1, digit y2, digit y3, digit y4,
            digit m1, digit m2, digit d1, digit d2 with
      | Some a, Some b, Some c, Some d, Some e, Some f, Some g, Some h =>
          let y := 1000 * a + 100 * b + 10 * c + d in
          let m := 10 * e + f in
          let dd := 10 * g + h in
          if Ascii.eqb sep1 "-" && Ascii.eqb sep2 "-" &&
             (1 <=? m) && (m <=? 12) && (1 <=? dd) && (dd <=? daysInMonth y m)
          then Some (daysFromCivil y m dd * msPerDay)
          else None
      | _, _, _, _, _, _, _, _ => None
      end
  | _ => None
  end.

(** A bounds accumulator: the least box around the positions seen so
    far; a coordinate that is not a position of two or three numbers is
    rejected. *)
Record Box : Type := {
  west : number; south : number; east : number; north : number }.

Definition fmin (a b : number) : number := if PrimFloat.ltb b a then b else a.
Definition fmax (a b : number) : number := if PrimFloat.ltb a b then b else a.

Definition extendBox (b : option Box) (c : Coordinates) : Completion (option Box) :=
  match c with
  | Position [lng; lat] | Position [lng; lat; _] =>
      Normal (Some match b with
                   | None => {| west := lng; south := lat; east := lng; north := lat |}
                   | Some bx =>
                       {| west := fmin (west bx) lng; south := fmin (south bx) lat;
                          east := fmax (east bx) lng; north := fmax (north bx) lat |}
                   end)
  | _ => Throw "Invalid LngLat object"
  end.

Definition point (date : string) (lng lat : number) : EonetGeometry.t :=
  EonetGeometry.make None None date Point (Position [lng; lat]).

Definition polygon (date : string) (ring : list (list number)) : EonetGeometry.t :=
  EonetGeometry.make None None date Polygon (Rings [ring]).

Definition event (id title category : string) (gs : list EonetGeometry.t)
  : EonetEvent.t :=
  EonetEvent.make id title None [EventCategory.make 10 category] gs.

(** Two Point entries, the later date first. *)
Definition unsortedEvent : EonetEvent.t :=
  event "EONET_1" "Storm" "Severe Storms"
    [ point "2024-01-15" 11%float 21%float; point "2024-01-01" 10%float 20%float ].

(** Point entries in chronological order around a Polygon entry. *)
Definition sortedEvent : EonetEvent.t :=
  event "EONET_2" "Fire" "Wildfires"
    [ point "2024-01-01" 10%float 20%float;
      polygon "2024-01-10" [[1; 2]; [3; 4]]%float;
      point "2024-01-15" 11%float 21%float ].

Definition polygonEvent : EonetEvent.t :=
  event "EONET_3" "Ice" "Sea and Lake Ice"
    [ polygon "2024-01-10" [[1; 2]; [3; 4]; [1; 2]]%float ].

(** A Point entry without coordinates. *)
Definition noCoordinatesEvent : EonetEvent.t :=
  event "EONET_4" "Flood" "Floods"
    [ EonetGeometry.make None None "2024-01-10" Point NotAnArray ].

(** A Point entry whose date does not parse. *)
Definition badDateEvent : EonetEvent.t :=
  event "EONET_5" "Volcano" "Volcanoes" [ point "not a date" 12%float 22%float ].

(** A second event with the id of [sortedEvent]. *)
Definition sameIdEvent : EonetEvent.t :=
  event "EONET_2" "Fire, later report" "Wildfires"
    [ point "2024-01-20" 13%float 23%float ].

(** A map that shows one feature of an earlier load. *)
Definition oldFeature : Feature.t :=
  Feature.make (Position [1; 2]%float)
    (Feature.makeProperties "EONET_0" "Old" "Wildfires" "wildfires"
       (OwnString "#ff7b7b") "2023-12-31 00:00").

Definition shownMap : MapWidget (option Box) :=
  {| eonetEvents := [oldFeature]; fitBoundsCalls := [] |}.

Definition shownState : AppState (option Box) :=
  {| mapRef := Some shownMap; loading := false; error := None;
     eventCount := 1 |}.

(** The loaders of the scenarios: local time UTC, the date-only parser,
    the box accumulator. *)
Definition toFeatures : EonetEvent.t -> Completion (list Feature.t) :=
  eventToFeatures utc parseDateOnly.

Definition load : FetchOutcome EventsResponse -> AppState (option Box)
                  -> AppState (option Box) :=
  loadEvents utc parseDateOnly None extendBox.

End Scenario.

(** * The rest of the two components *)

(** ** [Date] methods the components call *)

Module DateMethods.

(** [Day(t)] and [TimeWithinDay(t)]. *)
Definition day (t : Z) : Z := t / msPerDay.
Definition timeWithinDay (t : Z) : Z := t mod msPerDay.

(** [MakeDay(year, month, date)] with the month as an index from 0: the
    day number of the first of the month, plus [date - 1]. *)
Definition makeDay (year month date : Z) : Z :=
  let ym := year + month / 12 in
  let mn := month mod 12 in
  daysFromCivil ym (mn + 1) 1 + date - 1.

(** [MakeDate(day, time)]. *)
Definition makeDate (d time : Z) : Z := d * msPerDay + time.

(** [TimeClip]: a time value beyond 8.64e15 ms is NaN. *)
Definition timeClip (t : Z) : Date :=
  if Z.abs t <=? 8640000000000000 then Some t else None.

Definition yearFromTime (t : Z) : Z := let '(y, _, _) := civilFromDays (day t) in y.
Definition monthFromTime (t : Z) : Z := let '(_, m, _) := civilFromDays (day t) in m - 1.
Definition dateFromTime (t : Z) : Z := let '(_, _, d) := civilFromDays (day t) in d.

(** [getUTCFullYear], [getUTCMonth], [getUTCDate]: NaN on the Invalid Date. *)
Definition getUTCFullYear (d : Date) : option Z := option_map yearFromTime d.
Definition getUTCMonth (d : Date) : option Z := option_map monthFromTime d.
Definition getUTCDate (d : Date) : option Z := option_map dateFromTime d.

(** [setUTCHours(0, 0, 0, 0)]. *)
Definition setUTCHoursZero (d : Date) : Date :=
  match d with
  | None => None
  | Some t => timeClip (makeDate (day t) 0)
  end.

(** [setUTCDate(date)]. *)
Definition setUTCDate (d : Date) (date : option Z) : Date :=
  match d, date with
  | Some t, Some dt =>
      timeClip (makeDate (makeDay (yearFromTime t) (monthFromTime t) dt)
                         (timeWithinDay t))
  | _, _ => None
  end.

(** A number in a template or under [String(...)]: NaN prints as "NaN". *)
Definition numberToString (n : option Z) : string :=
  match n with
  | None => "NaN"
  | Some z => showInt z
  end.

(** [s.padStart(width, '0')]. *)
Definition padStart (s : string) (width : nat) : string :=
  String.concat "" (repeat "0" (width - String.length s)) +:+ s.

Section LocalTime.

(** The offset of local time at a UTC time value and at a local time
    value ([LocalTZA] with its flag true and false). *)
Variable localOffset : Z -> Z.
Variable localOffsetOfLocal : Z -> Z.

Definition localTime (t : Z) : Z := t + localOffset t.
Definition utcOfLocal (lt : Z) : Z := lt - localOffsetOfLocal lt.

(** [getDate]. *)
Definition getDate (d : Date) : option Z :=
  option_map (fun t => dateFromTime (localTime t)) d.

(** [setDate(date)]. *)
Definition setDate (d : Date) (date : option Z) : Date :=
  match d, date with
  | Some t, Some dt =>
      let lt := localTime t in
      timeClip (utcOfLocal (makeDate (makeDay (yearFromTime lt) (monthFromTime lt) dt)
                                     (timeWithinDay lt)))
  | _, _ => None
  end.

End LocalTime.

End DateMethods.
Import DateMethods.

(** ** [NasaMap]: the date range, the filters and the category list *)

Module Range.
Record t : Type := make { start : Date; end_ : Date }.
End Range.

(** [getDefaultDateRange]; [now1] and [now2] are the clock at the two
    [new Date()]. *)
Definition getDefaultDateRange (localOffset localOffsetOfLocal : Z -> Z)
    (now1 now2 : Z) (days : Z) : Range.t :=
  let end_ := Some now1 in
  let start := Some now2 in
  let start :=
    setDate localOffset localOffsetOfLocal start
      (option_map (fun d => d - days) (getDate localOffset end_)) in
  Range.make start end_.

(** A category of the feed; its [id] is an integer. *)
Module EonetCategory.
Record t : Type := make {
  id : Z;
  title : string;
  description : option string;
  layers : option (list (string * string)) }.
End EonetCategory.

Record CategoriesResponse : Type := { categories : list EonetCategory.t }.

(** The effect that loads the categories:
    [.then((data) => setCategories(data.categories)).catch(() => {})]. *)
Definition loadCategories (outcome : FetchOutcome CategoriesResponse)
    (current : list EonetCategory.t) : list EonetCategory.t :=
  match fetchJson outcome with
  | Normal data => categories data
  | Throw _ => current
  end.

(** [Number.MAX_SAFE_INTEGER], 2^53 - 1. *)
Definition MAX_SAFE_INTEGER : Z := 9007199254740991.

(** [Number.prototype.toString] on the integer [id]: its decimal digits
    when it is a safe integer. The text of a larger number (the shortest
    digits that give the number back, and an exponent from 1e21 on, as
    in [1e+21]) is the engine's, [largeText]. *)
Definition idToString (largeText : Z -> string) (id : Z) : string :=
  if Z.abs id <=? MAX_SAFE_INTEGER then showInt id else largeText id.

(** The [value]s of the options of the category selector:
    [c.id.toString()] after the empty value. *)
Definition categoryOptions (largeText : Z -> string) (cats : list EonetCategory.t)
  : list string :=
  "" :: map (fun c => idToString largeText (EonetCategory.id c)) cats.

(** The filters: the range and the selected category. *)
Module Filters.
Record t : Type := make { range : Range.t; selectedCategory : string }.
End Filters.

Section FilterHandlers.

Variable localOffset : Z -> Z.
Variable parseDate : string -> Date.

(** [onChange] of the selector: [setSelectedCategory(e.target.value)]. *)
Definition onCategoryChange (value : string) (f : Filters.t) : Filters.t :=
  Filters.make (Filters.range f) value.

(** [onChange] of the start input:
    [setRange({ start: new Date(e.target.value), end })]. *)
Definition onStartChange (value : string) (f : Filters.t) : Filters.t :=
  Filters.make (Range.make (parseDate value) (Range.end_ (Filters.range f)))
               (Filters.selectedCategory f).

(** [onChange] of the end input:
    [setRange({ start, end: new Date(e.target.value) })]. *)
Definition onEndChange (value : string) (f : Filters.t) : Filters.t :=
  Filters.make (Range.make (Range.start (Filters.range f)) (parseDate value))
               (Filters.selectedCategory f).

(** [queryUrl] of the current filters. *)
Definition queryUrlOf (f : Filters.t) : Completion string :=
  queryUrl localOffset (Range.start (Filters.range f)) (Range.end_ (Filters.range f))
           (Filters.selectedCategory f).

(** The [value] of the start and end inputs: [format(start, 'yyyy-MM-dd')]. *)
Definition startInputValue (f : Filters.t) : Completion string :=
  format localOffset (Range.start (Filters.range f)) yyyy_MM_dd.

Definition endInputValue (f : Filters.t) : Completion string :=
  format localOffset (Range.end_ (Filters.range f)) yyyy_MM_dd.

End FilterHandlers.

(** The filters at mount: [getDefaultDateRange(45)] and no category. *)
Definition initialFilters (localOffset localOffsetOfLocal : Z -> Z)
    (now1 now2 : Z) : Filters.t :=
  Filters.make (getDefaultDateRange localOffset localOffsetOfLocal now1 now2 45) "".

(** The ['circle-color'] expression of the layer ['eonet-circles']: a
    [case] on the feature's [categoryKey]. *)
Definition circleColor (categoryKey : string) : string :=
  if String.eqb categoryKey "wildfires" then "#ff7b7b"
  else if String.eqb categoryKey "severeStorms" then "#ffd166"
  else if String.eqb categoryKey "volcanoes" then "#f94144"
  else if String.eqb categoryKey "seaLakeIce" then "#90e0ef"
  else if String.eqb categoryKey "snow" then "#a8dadc"
  else if String.eqb categoryKey "dustHaze" then "#e9c46a"
  else if String.eqb categoryKey "earthquakes" then "#f3722c"
  else if String.eqb categoryKey "floods" then "#43aa8b"
  else if String.eqb categoryKey "manmade" then "#bdb2ff"
  else if String.eqb categoryKey "waterColor" then "#48cae4"
  else if String.eqb categoryKey "landslides" then "#8ecae6"
  else "#7aa2ff".

(** [legends]. The labels are Latin-1 text. *)
Module Legend.
Record t : Type := make { key : string; label : string; color : option string }.
End Legend.

Definition legends : list Legend.t :=
  [ Legend.make "wildfires" ("Inc" +:+ String (ascii_of_N 234) "ndios")
      (CATEGORY_COLORS !! "wildfires");
    Legend.make "severeStorms" "Tempestades" (CATEGORY_COLORS !! "severeStorms");
    Legend.make "volcanoes" ("Vulc" +:+ String (ascii_of_N 245) "es")
      (CATEGORY_COLORS !! "volcanoes");
    Legend.make "earthquakes" "Terremotos" (CATEGORY_COLORS !! "earthquakes");
    Legend.make "floods"
      ("Inunda" +:+ String (ascii_of_N 231) (String (ascii_of_N 245) "es"))
      (CATEGORY_COLORS !! "floods") ].

(** ** [NasaGibsMap]: the date strings and the component state *)

(** [GIBS_LAYERS]. *)
Definition GIBS_LAYERS : list (string * string) :=
  [ ("BlueMarble_ShadedRelief_Bathymetry", "Blue Marble (Bathymetry)");
    ("MODIS_Terra_CorrectedReflectance_TrueColor", "MODIS Terra True Color");
    ("MODIS_Aqua_CorrectedReflectance_TrueColor", "MODIS Aqua True Color");
    ("VIIRS_SNPP_CorrectedReflectance_TrueColor", "VIIRS SNPP True Color");
    ("VIIRS_NOAA20_CorrectedReflectance_TrueColor", "VIIRS NOAA-20 True Color");
    ("MODIS_Terra_Aerosol", "Aerosol (Terra)");
    ("MODIS_Terra_Cloud_Top_Temperature_Day", "Cloud Top Temp (Day)");
    ("MODIS_Terra_Chlorophyll_A", "Chlorophyll (Terra)") ].

(** [formatDateForGibs]. *)
Definition formatDateForGibs (date : Date) : string :=
  let yyyy := getUTCFullYear date in
  let mm := padStart (numberToString (option_map (fun m => m + 1) (getUTCMonth date))) 2 in
  let dd := padStart (numberToString (getUTCDate date)) 2 in
  numberToString yyyy +:+ "-" +:+ mm +:+ "-" +:+ dd.

(** [getYesterdayUtcDateString]; [now] is the clock at [new Date()]. *)
Definition getYesterdayUtcDateString (now : Z) : string :=
  let d := Some now in
  let d := setUTCHoursZero d in
  let d := setUTCDate d (option_map (fun x => x - 1) (getUTCDate d)) in
  formatDateForGibs d.

Module NasaGibsMap.

Record State : Type := { selectedLayer : string; selectedDate : string }.

(** The state at mount; [now] is the clock when the initialiser of
    [selectedDate] runs. *)
Definition initialState (now : Z) : State :=
  {| selectedLayer := "VIIRS_SNPP_CorrectedReflectance_TrueColor";
     selectedDate := getYesterdayUtcDateString now |}.

(** [handleLayerChange]. *)
Definition handleLayerChange (value : string) (st : State) : State :=
  {| selectedLayer := value; selectedDate := selectedDate st |}.

(** [onChange] of the date input. *)
Definition onDateChange (value : string) (st : State) : State :=
  {| selectedLayer := selectedLayer st; selectedDate := value |}.

(** [resetToday]. *)
Definition resetToday (now : Z) (st : State) : State :=
  {| selectedLayer := selectedLayer st;
     selectedDate := formatDateForGibs (Some now) |}.

(** [tileUrl]. *)
Definition tileUrl (st : State) : string :=
  buildTileUrl (selectedLayer st) (selectedDate st).

(** The [key] of the tile layer. *)
Definition tileLayerKey (st : State) : string :=
  selectedLayer st +:+ "-" +:+ selectedDate st.

(** The [max] of the date input; [now] is the clock at the render. *)
Definition maxDate (now : Z) : string := formatDateForGibs (Some now).

End NasaGibsMap.

(** ** Further notions *)

(** The text [yyyy-MM-dd] of a calendar day, as [format] renders it. *)
Definition dayText (ymd : Z * Z * Z) : string :=
  let '(y, m, d) := ymd in
  addLeadingZeros (eraYear y) 4 +:+ "-" +:+ addLeadingZeros m 2 +:+ "-"
  +:+ addLeadingZeros d 2.

(** The event count shown is the number of features in the map's source. *)
Definition CountShown {LngLatBounds : Type} (st : AppState LngLatBounds) : Prop :=
  match mapRef st with
  | Some map => eventCount st = length (eonetEvents map)
  | None => True
  end.

(** The error text the loading effect shows for a thrown message. *)
Definition shownError (message : string) : option string :=
  Some (if String.eqb message "" then "Falha ao carregar dados" else message).

(** No code unit of [s] is [sep]. *)
Definition free (sep : ascii) (s : string) : bool :=
  allUnits (fun c => negb (Ascii.eqb c sep)) s.

(** ** Checks over a range, by computation *)

(** [p] holds at 0, 1, ..., n - 1. *)
Definition holdsBelow (n : N) (p : Z -> bool) : bool :=
  snd (N.iter n (fun st : Z * bool => (fst st + 1, snd st && p (fst st))) (0, true)).

(** The decimal digit of a code unit, and two and four code units that
    spell a number. *)
Definition spellsTwo (s : string) (n : Z) : bool :=
  match s with
  | String a (String b EmptyString) =>
      match Scenario.digit a, Scenario.digit b with
      | Some x, Some y => 10 * x + y =? n
      | _, _ => false
      end
  | _ => false
  end.

Definition spellsFour (s : string) (n : Z) : bool :=
  match s with
  | String a (String b (String c (String d EmptyString))) =>
      match Scenario.digit a, Scenario.digit b, Scenario.digit c, Scenario.digit d with
      | Some x, Some y, Some z, Some w => 1000 * x + 100 * y + 10 * z + w =? n
      | _, _, _, _ => false
      end
  | _ => false
  end.

(** The fields of the day [doe] of a 400-year era, as [civilFromDays]
    computes them, are in range and give the day back. *)
Definition civilCheck (doe : Z) : bool :=
  let yoe := (doe - doe / 1460 + doe / 36524 - doe / 146096) / 365 in
  let doy := doe - (365 * yoe + yoe / 4 - yoe / 100) in
  let mp := (5 * doy + 2) / 153 in
  let d := doy - (153 * mp + 2) / 5 + 1 in
  let m := if mp <? 10 then mp + 3 else mp - 9 in
  let y := if m <=? 2 then yoe + 1 else yoe in
  (0 <=? yoe) && (yoe <=? 399) && (0 <=? mp) && (mp <=? 11) &&
  (1 <=? d) && (d <=? Scenario.daysInMonth y m) &&
  (yoe * 365 + yoe / 4 - yoe / 100 + ((153 * mp + 2) / 5 + d - 1) =? doe).

(** * Properties *)

(** ** The built-ins on known values *)

Example civil_days_known :
  daysFromCivil 1970 1 1 = 0 /\ daysFromCivil 2000 3 1 = 11017 /\
  daysFromCivil 2024 2 29 = 19782 /\
  civilFromDays 0 = (1970, 1, 1) /\ civilFromDays (-1) = (1969, 12, 31) /\
  civilFromDays 11017 = (2000, 3, 1) /\ civilFromDays 19782 = (2024, 2, 29).
Proof. repeat split; reflexivity. Qed.

Example render_known :
  render (fieldsOf 1704067200000) yyyy_MM_dd_HH_mm = "2024-01-01 00:00" /\
  render (fieldsOf (1704067200000 - 60000)) yyyy_MM_dd_HH_mm = "2023-12-31 23:59" /\
  render (fieldsOf (-62198755200000)) yyyy_MM_dd = "0002-01-01".
Proof. repeat split; vm_compute; reflexivity. Qed.

Example parseDateOnly_known :
  Scenario.parseDateOnly "2024-01-15" = Some 1705276800000 /\
  Scenario.parseDateOnly "2023-02-29" = None /\
  Scenario.parseDateOnly "not a date" = None.
Proof. repeat split; vm_compute; reflexivity. Qed.

Example urlencoded_known :
  URLSearchParams.toString
    (URLSearchParams.set "a" "x y/z"
       (URLSearchParams.set "b" "1" (URLSearchParams.set "a" "0" []))) =
  "a=x+y%2Fz&b=1" /\
  URLSearchParams.encode (String (ascii_of_N 233) "") = "%C3%A9".
Proof. split; vm_compute; reflexivity. Qed.

Example fetchJson_known :
  fetchJson (Response 503 (Parsed 0)) = Throw "HTTP 503" /\
  fetchJson (Response 204 (Parsed 7)) = Normal 7 /\
  fetchJson (Response 200 (@Malformed Z "Unexpected token")) = Throw "Unexpected token".
Proof. repeat split; reflexivity. Qed.

(** ** Strings *)

Section StringFacts.

Ltac by_code_unit c :=
  destruct c as [[] [] [] [] [] [] [] []]; vm_compute; reflexivity.


Lemma lowerCodeUnit_not_upper (c : ascii) :
  isUpperCase (lowerCodeUnit c) = false.
Proof. by_code_unit c. Qed.


Lemma removeAll_removeAll (p q : ascii -> bool) (s : string) :
  removeAll q (removeAll p s) = removeAll (fun c => p c || q c) s.
Proof.
  induction s as [|c s IH]; simpl; [reflexivity|].
  destruct (p c); simpl; [exact IH|].
  destruct (q c); simpl; [exact IH | now rewrite IH].
Qed.

Lemma removeAll_ext (p q : ascii -> bool) (s : string) :
  (forall c, p c = q c) -> removeAll p s = removeAll q s.
Proof.
  intros E. induction s as [|c s IH]; simpl; [reflexivity|].
  rewrite E, IH. reflexivity.
Qed.

(** [normalizeCategoryKey] lower-cases and then drops the stripped code
    units in one pass. *)
Lemma normalizeCategoryKey_one_pass (title : string) :
  normalizeCategoryKey title = removeAll isStripped (toLowerCase title).
Proof.
  unfold normalizeCategoryKey. rewrite !removeAll_removeAll.
  apply removeAll_ext. intros c. unfold isStripped.
  destruct (isWhiteSpace c), (isParen c), (isSlash c); reflexivity.
Qed.

Lemma removeAll_idempotent (p : ascii -> bool) (s : string) :
  removeAll p (removeAll p s) = removeAll p s.
Proof.
  induction s as [|c s IH]; simpl; [reflexivity|].
  destruct (p c) eqn:E; simpl; [exact IH|]. rewrite E, IH. reflexivity.
Qed.





Lemma allUnits_removeAll (p cls : ascii -> bool) (s : string) :
  allUnits p s = true -> allUnits p (removeAll cls s) = true.
Proof.
  induction s as [|c s IH]; simpl; [trivial|].
  intros [Hc Hs]%andb_prop. destruct (cls c); simpl; [auto|].
  rewrite Hc. simpl. auto.
Qed.

Lemma toLowerCase_no_upper (s : string) :
  allUnits (fun c => negb (isUpperCase c)) (toLowerCase s) = true.
Proof.
  induction s as [|c s IH]; simpl; [reflexivity|].
  rewrite lowerCodeUnit_not_upper, IH. reflexivity.
Qed.

Lemma normalizeCategoryKey_no_upper (title : string) :
  allUnits (fun c => negb (isUpperCase c)) (normalizeCategoryKey title) = true.
Proof.
  rewrite normalizeCategoryKey_one_pass.
  apply allUnits_removeAll, toLowerCase_no_upper.
Qed.

Lemma append_assoc (a b c : string) : (a +:+ b) +:+ c = a +:+ (b +:+ c).
Proof.
  induction a as [|x a IH]; [reflexivity|].
  change (String x ((a +:+ b) +:+ c) = String x (a +:+ (b +:+ c))).
  now rewrite IH.
Qed.

Lemma prefix_append (n rest : string) : String.prefix n (n +:+ rest) = true.
Proof.
  induction n as [|c n IH]; simpl; [now destruct rest|].
  destruct (ascii_dec c c); [exact IH | congruence].
Qed.

Lemma includes_prefix (hay n : string) :
  String.prefix n hay = true -> includes hay n = true.
Proof. intros H. destruct hay; cbn [includes]; rewrite H; reflexivity. Qed.

Lemma includes_here (n rest : string) : includes (n +:+ rest) n = true.
Proof. apply includes_prefix, prefix_append. Qed.

Lemma includes_later (pre hay n : string) :
  includes hay n = true -> includes (pre +:+ hay) n = true.
Proof.
  intros H. induction pre as [|c pre IH]; [exact H|].
  change (String c pre +:+ hay) with (String c (pre +:+ hay)).
  cbn [includes]. rewrite IH. apply orb_true_r.
Qed.

End StringFacts.

(** ** Strings of the Latin-1 range among all strings *)

Section Utf16Facts.

Variable U : Utf16.Tables.

Local Abbreviation normalize16 := (Utf16.normalizeCategoryKey U).

Ltac by_unit c :=
  destruct c as [[] [] [] [] [] [] [] []]; vm_compute; reflexivity.

Lemma isHighSurrogate_codeUnit (c : ascii) : Utf16.isHighSurrogate (codeUnit c) = false.
Proof. by_unit c. Qed.

Lemma codeUnitsOf_codeUnit (c : ascii) : Utf16.codeUnitsOf (codeUnit c) = [codeUnit c].
Proof. by_unit c. Qed.

Lemma lowerOf_codeUnit (c : ascii) :
  Utf16.lowerOf U (codeUnit c) = [codeUnit (lowerCodeUnit c)].
Proof. by_unit c. Qed.

Lemma codeUnit_not_sigma (c : ascii) : (codeUnit c =? 0x3A3)%N = false.
Proof. by_unit c. Qed.

Lemma isWhiteSpace_codeUnit (c : ascii) : Utf16.isWhiteSpace (codeUnit c) = isWhiteSpace c.
Proof. by_unit c. Qed.

Lemma isParen_codeUnit (c : ascii) : Utf16.isParen (codeUnit c) = isParen c.
Proof. by_unit c. Qed.

Lemma isSlash_codeUnit (c : ascii) : Utf16.isSlash (codeUnit c) = isSlash c.
Proof. by_unit c. Qed.

Lemma isStripped_codeUnit (c : ascii) : Utf16.isStripped (codeUnit c) = isStripped c.
Proof. by_unit c. Qed.

Lemma isLatin1Upper_codeUnit (c : ascii) : Utf16.isLatin1Upper (codeUnit c) = isUpperCase c.
Proof. by_unit c. Qed.

Lemma codePoints_widen (s : string) :
  Utf16.codePoints (Utf16.widen s) = Utf16.widen s.
Proof.
  induction s as [|c s IH]; [reflexivity|].
  destruct s as [|d s]; [reflexivity|].
  change (Utf16.widen (String c (String d s)))
    with (codeUnit c :: Utf16.widen (String d s)).
  change (Utf16.widen (String d s)) with (codeUnit d :: Utf16.widen s) in *.
  cbn [Utf16.codePoints] in *. rewrite isHighSurrogate_codeUnit. cbn [andb].
  now rewrite IH.
Qed.

Lemma lowerFrom_widen (s : string) (before : list N) :
  Utf16.lowerFrom U before (Utf16.widen s) = Utf16.widen (toLowerCase s).
Proof.
  revert before. induction s as [|c s IH]; intros before; [reflexivity|].
  cbn [Utf16.widen Utf16.lowerFrom toLowerCase].
  rewrite codeUnit_not_sigma, lowerOf_codeUnit, IH. reflexivity.
Qed.

Lemma codeUnitsOf_widen (s : string) :
  flat_map Utf16.codeUnitsOf (Utf16.widen s) = Utf16.widen s.
Proof.
  induction s as [|c s IH]; [reflexivity|].
  cbn [Utf16.widen flat_map]. now rewrite codeUnitsOf_codeUnit, IH.
Qed.

(** On a string of the Latin-1 range, [toLowerCase] is the code unit by
    code unit map of [JsString]. *)
Lemma toLowerCase_widen (s : string) :
  Utf16.toLowerCase U (Utf16.widen s) = Utf16.widen (toLowerCase s).
Proof.
  unfold Utf16.toLowerCase.
  now rewrite codePoints_widen, lowerFrom_widen, codeUnitsOf_widen.
Qed.

Lemma removeAll_widen (cls16 : N -> bool) (cls : ascii -> bool) (s : string) :
  (forall c, cls16 (codeUnit c) = cls c) ->
  Utf16.removeAll cls16 (Utf16.widen s) = Utf16.widen (removeAll cls s).
Proof.
  intros E. unfold Utf16.removeAll.
  induction s as [|c s IH]; [reflexivity|].
  cbn [Utf16.widen List.filter removeAll]. rewrite E.
  destruct (cls c); cbn [negb Utf16.widen]; now rewrite IH.
Qed.

(** On a title of the Latin-1 range, [normalizeCategoryKey] is the
    function of that name on [string]. *)
Lemma normalizeCategoryKey_widen (title : string) :
  normalize16 (Utf16.widen title) = Utf16.widen (normalizeCategoryKey title).
Proof.
  unfold Utf16.normalizeCategoryKey, normalizeCategoryKey.
  rewrite toLowerCase_widen.
  rewrite (removeAll_widen _ _ _ isWhiteSpace_codeUnit).
  rewrite (removeAll_widen _ _ _ isParen_codeUnit).
  now rewrite (removeAll_widen _ _ _ isSlash_codeUnit).
Qed.

Lemma isLatin1_widen (s : Utf16.t) :
  Utf16.isLatin1 s <-> exists x, s = Utf16.widen x.
Proof.
  split.
  - induction 1 as [|u s B _ [x ->]]; [now exists EmptyString|].
    exists (String (ascii_of_N u) x). cbn [Utf16.widen]. unfold codeUnit.
    now rewrite N_ascii_embedding.
  - intros [x ->]. induction x as [|c x IH]; constructor; [|exact IH].
    apply N_ascii_bounded.
Qed.

Lemma widen_length (s : string) : length (Utf16.widen s) = String.length s.
Proof. induction s as [|c s IH]; cbn [Utf16.widen length String.length]; congruence. Qed.

Lemma widen_inj (s t : string) : Utf16.widen s = Utf16.widen t -> s = t.
Proof.
  revert t. induction s as [|c s IH]; intros [|d t]; cbn [Utf16.widen];
    try discriminate; [reflexivity|].
  intros [= C S]. unfold codeUnit in C.
  rewrite <- (ascii_N_embedding c), <- (ascii_N_embedding d), C.
  now rewrite (IH _ S).
Qed.

Lemma widen_Forall (p16 : N -> bool) (p : ascii -> bool) (s : string) :
  (forall c, p16 (codeUnit c) = p c) ->
  Forall (fun u => p16 u = true) (Utf16.widen s) <-> allUnits p s = true.
Proof.
  intros E. induction s as [|c s IH]; cbn [Utf16.widen allUnits].
  - split; [reflexivity | constructor].
  - rewrite Forall_cons_iff, andb_true_iff, IH, E. reflexivity.
Qed.

End Utf16Facts.

(** ** The key of a title *)

Section KeyOfTitle.

Variable U : Utf16.Tables.

Local Abbreviation normalize16 := (Utf16.normalizeCategoryKey U).



End KeyOfTitle.



(** ** The palette *)

Lemma CATEGORY_COLORS_entries (key c : string) :
  CATEGORY_COLORS !! key = Some c ->
  In key camelCaseKeys \/
  In key ["wildfires"; "volcanoes"; "snow"; "earthquakes"; "floods";
          "manmade"; "landslides"] /\ ~ In c camelCaseColors.
Proof.
  unfold CATEGORY_COLORS. intros H. apply elem_of_list_to_map_2 in H.
  repeat (apply elem_of_cons in H as [H|H];
          [ injection H as -> ->;
            first [ left; simpl; tauto
                  | right; split; [simpl; tauto|];
                    simpl; intros D; repeat destruct D as [D|D];
                    first [discriminate D | destruct D] ]
          | ]).
  inversion H.
Qed.

Lemma camelCase_not_normalized (title : string) :
  ~ In (normalizeCategoryKey title) camelCaseKeys.
Proof.
  intros H. pose proof (normalizeCategoryKey_no_upper title) as U.
  simpl in H. repeat destruct H as [H|H]; try contradiction;
    rewrite <- H in U; vm_compute in U; discriminate U.
Qed.

Lemma colorFor_own (key c : string) :
  colorFor key = OwnString c ->
  c = DEFAULT_COLOR \/ CATEGORY_COLORS !! key = Some c.
Proof.
  unfold colorFor. destruct (CATEGORY_COLORS !! key) as [c'|].
  - destruct (String.eqb c' ""); intros [= <-]; auto.
  - destruct (existsb _ _); [discriminate|]. intros [= <-]. auto.
Qed.

(** C10. The key computed from a category title has no upper-case letter,
    so it is never one of the camelCase palette keys [severeStorms],
    [seaLakeIce], [dustHaze], [waterColor]; a title whose key is one of
    these names in lower case (as "Severe Storms" gives "severestorms")
    gets the default colour [#7aa2ff], also as the colour of the event's
    feature, and no title ever gets the colour stored under a camelCase
    key. *)
Theorem camelCase_palette_keys_unreachable :
  (forall title,
     allUnits (fun c => negb (isUpperCase c)) (normalizeCategoryKey title) = true) /\
  (forall title, ~ In (normalizeCategoryKey title) camelCaseKeys) /\
  (forall title, In (normalizeCategoryKey title) multiWordKeys ->
     colorFor (normalizeCategoryKey title) = OwnString "#7aa2ff") /\
  (normalizeCategoryKey "Severe Storms" = "severestorms" /\
   colorFor (normalizeCategoryKey "Severe Storms") = OwnString "#7aa2ff") /\
  (forall title c, colorFor (normalizeCategoryKey title) = OwnString c ->
     ~ In c camelCaseColors) /\
  (forall localOffset parseDate ev f,
     eventToFeatures localOffset parseDate ev = Normal [f] ->
     In (Feature.categoryKey (Feature.properties f)) multiWordKeys ->
     Feature.color (Feature.properties f) = OwnString "#7aa2ff").
Proof.
  assert (K : forall key, In key multiWordKeys -> colorFor key = OwnString "#7aa2ff").
  { intros key H. simpl in H.
    repeat destruct H as [H|H]; try contradiction; subst key;
      vm_compute; reflexivity. }
  split; [exact normalizeCategoryKey_no_upper|].
  split; [exact camelCase_not_normalized|].
  split; [intros title; apply K|].
  split; [split; [reflexivity | vm_compute; reflexivity]|].
  split.
  - intros title c H. apply colorFor_own in H as [->|H].
    + simpl. intros D. repeat destruct D as [D|D];
        first [discriminate D | destruct D].
    + apply CATEGORY_COLORS_entries in H as [H|[_ H]]; [|exact H].
      exfalso. exact (camelCase_not_normalized title H).
  - intros localOffset parseDate ev f. unfold eventToFeatures.
    destruct (lastPoint ev) as [lp|]; [|discriminate].
    destruct (negb _); [discriminate|].
    destruct (format _ _ _) as [d|m]; simpl; [|discriminate].
    intros [= <-]. simpl. apply K.
Qed.

Lemma camelCase_palette_keys_unreachable_witness :
  In (normalizeCategoryKey "Water Color") multiWordKeys /\
  colorFor (normalizeCategoryKey "Water Color") = OwnString "#7aa2ff".
Proof.
  assert (H : In (normalizeCategoryKey "Water Color") multiWordKeys).
  { vm_compute. tauto. }
  split; [exact H|].
  exact (proj1 (proj2 (proj2 camelCase_palette_keys_unreachable)) _ H).
Defined.

(** ** The tile URL *)

(** C6. [buildTileUrl] is a total function of the layer and the date:
    whatever they are, the URL contains [layer=<layer>] and [time=<date>]
    and ends with the placeholders [{z}], [{y}], [{x}] as written in the
    template; for the layer VIIRS_SNPP_CorrectedReflectance_TrueColor and
    the date 2024-06-01 it contains
    [layer=VIIRS_SNPP_CorrectedReflectance_TrueColor], [time=2024-06-01],
    [{z}], [{y}] and [{x}]. *)
Theorem buildTileUrl_keeps_placeholders :
  (forall layer date,
     includes (buildTileUrl layer date) ("layer=" +:+ layer) = true /\
     includes (buildTileUrl layer date) ("time=" +:+ date) = true /\
     exists front,
       buildTileUrl layer date =
       front +:+ "&tilematrix={z}&tilerow={y}&tilecol={x}") /\
  (let url := buildTileUrl "VIIRS_SNPP_CorrectedReflectance_TrueColor" "2024-06-01" in
   includes url "layer=VIIRS_SNPP_CorrectedReflectance_TrueColor" = true /\
   includes url "time=2024-06-01" = true /\
   includes url "{z}" = true /\ includes url "{y}" = true /\
   includes url "{x}" = true /\
   url = "https://gibs.earthdata.nasa.gov/wmts/epsg3857/best/wmts.cgi?service=WMTS&request=GetTile&version=1.0.0&layer=VIIRS_SNPP_CorrectedReflectance_TrueColor&style=default&tilematrixset=GoogleMapsCompatible_Level&format=image%2Fjpeg&time=2024-06-01&tilematrix={z}&tilerow={y}&tilecol={x}").
Proof.
  split.
  - intros layer date. unfold buildTileUrl. split; [|split].
    + apply includes_later.
      change ("?service=WMTS&request=GetTile&version=1.0.0&layer=" +:+ layer +:+ ?r)
        with ("?service=WMTS&request=GetTile&version=1.0.0&" +:+
              ("layer=" +:+ layer) +:+ r).
      apply includes_later, includes_here.
    + do 3 apply includes_later.
      change ("&style=default&tilematrixset=GoogleMapsCompatible_Level&format=image%2Fjpeg&time="
              +:+ date +:+ ?r)
        with ("&style=default&tilematrixset=GoogleMapsCompatible_Level&format=image%2Fjpeg&"
              +:+ ("time=" +:+ date) +:+ r).
      apply includes_later, includes_here.
    + eexists. rewrite <- !append_assoc. reflexivity.
  - vm_compute. repeat split; reflexivity.
Qed.

(** ** The event normaliser *)

Section NormalizerFacts.

Variable localOffset : Z -> Z.
Variable parseDate : string -> Date.

Local Abbreviation toFeatures := (eventToFeatures localOffset parseDate).

Lemma find_skip {A : Type} (p : A -> bool) (l1 l2 : list A) :
  (forall x, In x l1 -> p x = false) -> find p (l1 ++ l2) = find p l2.
Proof.
  induction l1 as [|x l1 IH]; intros H; simpl; [reflexivity|].
  rewrite (H x (or_introl eq_refl)). apply IH. intros y Hy. apply H. now right.
Qed.

Lemma find_split {A : Type} (p : A -> bool) (l : list A) (x : A) :
  find p l = Some x ->
  exists l1 l2, l = l1 ++ x :: l2 /\ p x = true /\
                forall y, In y l1 -> p y = false.
Proof.
  induction l as [|a l IH]; simpl; [discriminate|].
  destruct (p a) eqn:E.
  - intros [= <-]. exists [], l. repeat split; [exact E|]. intros y [].
  - intros H. destruct (IH H) as (l1 & l2 & -> & Hx & Hl1).
    exists (a :: l1), l2. repeat split; [exact Hx|].
    intros y [<-|Hy]; [exact E | now apply Hl1].
Qed.

Lemma isPoint_Polygon (ty : GeometryType) : isPoint ty = false <-> ty = Polygon.
Proof. destruct ty; simpl; split; congruence. Qed.

Lemma isPoint_Point (ty : GeometryType) : isPoint ty = true <-> ty = Point.
Proof. destruct ty; simpl; split; congruence. Qed.

(** The selected entry is the Point entry after which only Polygon
    entries come. *)
Lemma lastPoint_last (ev : EonetEvent.t) before lp after :
  EonetEvent.geometry ev = before ++ lp :: after ->
  EonetGeometry.type lp = Point ->
  (forall h, In h after -> EonetGeometry.type h = Polygon) ->
  lastPoint ev = Some lp.
Proof.
  intros G P A. unfold lastPoint. rewrite G, rev_app_distr. simpl.
  rewrite <- app_assoc. rewrite find_skip.
  - simpl. now rewrite P.
  - intros x Hx. apply isPoint_Polygon, A. now apply in_rev.
Qed.

Lemma lastPoint_Some (ev : EonetEvent.t) lp :
  lastPoint ev = Some lp ->
  exists before after,
    EonetEvent.geometry ev = before ++ lp :: after /\
    EonetGeometry.type lp = Point /\
    forall h, In h after -> EonetGeometry.type h = Polygon.
Proof.
  unfold lastPoint. intros H.
  apply find_split in H as (l1 & l2 & E & P & N).
  exists (rev l2), (rev l1). split; [|split].
  - rewrite <- (rev_involutive (EonetEvent.geometry ev)), E, rev_app_distr.
    simpl. now rewrite <- app_assoc.
  - now apply isPoint_Point.
  - intros h Hh. apply isPoint_Polygon, N. now apply in_rev.
Qed.

Lemma lastPoint_None (ev : EonetEvent.t) :
  (forall g, In g (EonetEvent.geometry ev) -> EonetGeometry.type g = Polygon) ->
  lastPoint ev = None.
Proof.
  intros H. unfold lastPoint.
  destruct (find _ _) as [g|] eqn:E; [|reflexivity].
  apply find_some in E as [I P]. apply in_rev in I.
  apply H in I. rewrite I in P. discriminate P.
Qed.

Lemma lastPoint_exists (ev : EonetEvent.t) :
  (exists g, In g (EonetEvent.geometry ev) /\ EonetGeometry.type g = Point) ->
  exists lp, lastPoint ev = Some lp.
Proof.
  intros (g & I & P). unfold lastPoint.
  destruct (find _ _) as [lp|] eqn:E; [now exists lp|].
  apply in_rev in I. apply (find_none _ _ E g) in I.
  rewrite P in I. discriminate I.
Qed.

Lemma eventToFeatures_selected (ev : EonetEvent.t) lp t :
  lastPoint ev = Some lp ->
  isArray (EonetGeometry.coordinates lp) = true ->
  parseDate (EonetGeometry.date lp) = Some t ->
  toFeatures ev =
  Normal [ featureOf ev lp (render (fieldsOf (t + localOffset t)) yyyy_MM_dd_HH_mm) ].
Proof.
  intros L A D. unfold eventToFeatures. rewrite L, A, D. reflexivity.
Qed.

Lemma eventToFeatures_Normal (ev : EonetEvent.t) fs :
  toFeatures ev = Normal fs ->
  (representable ev = false /\ fs = []) \/
  (representable ev = true /\
   exists lp latest, lastPoint ev = Some lp /\ fs = [featureOf ev lp latest]).
Proof.
  unfold eventToFeatures, representable.
  destruct (lastPoint ev) as [lp|]; [|intros [= <-]; now left].
  destruct (isArray _); simpl; [|intros [= <-]; now left].
  destruct (format _ _ _) as [latest|m]; simpl; [|discriminate].
  intros [= <-]. right. split; [reflexivity|]. now exists lp, latest.
Qed.

Lemma flatMap_app {A B : Type} (f : A -> Completion (list B)) (l1 l2 : list A) :
  flatMap f (l1 ++ l2) =
  let! a := flatMap f l1 in let! b := flatMap f l2 in Normal (a ++ b).
Proof.
  induction l1 as [|x l1 IH]; simpl.
  - destruct (flatMap f l2); reflexivity.
  - destruct (f x) as [ys|m]; simpl; [|reflexivity].
    rewrite IH. destruct (flatMap f l1) as [a|m]; simpl; [|reflexivity].
    destruct (flatMap f l2) as [b|m]; simpl; [|reflexivity].
    now rewrite app_assoc.
Qed.

(** An event without a feature leaves the batch as it is without it. *)
Lemma flatMap_skip (evs1 evs2 : list EonetEvent.t) (ev : EonetEvent.t) :
  toFeatures ev = Normal [] ->
  flatMap toFeatures (evs1 ++ ev :: evs2) =
  flatMap toFeatures (evs1 ++ evs2).
Proof.
  intros H. rewrite !flatMap_app. simpl. rewrite H. simpl.
  destruct (flatMap _ evs1); simpl; [|reflexivity].
  destruct (flatMap _ evs2); reflexivity.
Qed.

Lemma chronological_before before lp after h t t' :
  Chronological parseDate (before ++ lp :: after) ->
  In h before ->
  parseDate (EonetGeometry.date h) = Some t' ->
  parseDate (EonetGeometry.date lp) = Some t ->
  t' <= t.
Proof.
  induction before as [|g before IH]; simpl; [intros _ []|].
  intros [Hg Hrest] [->|I] Dh Dlp.
  - apply (Hg lp); [apply in_elt | exact Dh | exact Dlp].
  - now apply IH.
Qed.

(** C1, amended. For every event whose geometry sequence has at least
    one Point entry, the normaliser selects the Point entry that comes
    last in the sequence, whatever the dates are; when that entry's
    coordinates are an array and its date parses, the event yields
    exactly one feature, and its coordinates are those of that entry.
    When the sequence is in chronological order the selected entry is
    the most recently dated Point entry. *)
Theorem point_event_yields_last_point_feature (ev : EonetEvent.t) :
  (exists g, In g (EonetEvent.geometry ev) /\ EonetGeometry.type g = Point) ->
  exists before lp after,
    EonetEvent.geometry ev = before ++ lp :: after /\
    EonetGeometry.type lp = Point /\
    (forall h, In h after -> EonetGeometry.type h = Polygon) /\
    (forall t,
       isArray (EonetGeometry.coordinates lp) = true ->
       parseDate (EonetGeometry.date lp) = Some t ->
       exists f, toFeatures ev = Normal [f] /\
                 Feature.coordinates f = EonetGeometry.coordinates lp) /\
    (forall t,
       Chronological parseDate (EonetEvent.geometry ev) ->
       parseDate (EonetGeometry.date lp) = Some t ->
       MostRecentPoint parseDate (EonetEvent.geometry ev) lp).
Proof.
  intros H. destruct (lastPoint_exists ev H) as [lp L].
  destruct (lastPoint_Some ev lp L) as (before & after & G & P & A).
  exists before, lp, after. repeat (split; [assumption|]). split.
  - intros t Arr D. eexists. split.
    + exact (eventToFeatures_selected ev lp t L Arr D).
    + reflexivity.
  - intros t C D. rewrite G in C |- *.
    split; [apply in_elt|]. split; [exact P|].
    exists t. split; [exact D|]. intros h t' I Ph Dh.
    apply in_app_or in I as [I|[<-|I]].
    + exact (chronological_before before lp after h t t' C I Dh D).
    + rewrite D in Dh. injection Dh as <-. lia.
    + rewrite (A h I) in Ph. discriminate Ph.
Qed.

(** The two kinds of malformed event. An event whose selected Point
    entry has no coordinate array is left out and the other events of the
    batch are processed as without it. For an event whose selected Point
    entry has coordinates and a date that does not parse the date
    formatter throws, and a batch that reaches this event yields no
    features at all but the error "Invalid time value". *)
Lemma malformed_event_handling (bad : EonetEvent.t) (lp : EonetGeometry.t) :
  lastPoint bad = Some lp ->
  (EonetGeometry.coordinates lp = NotAnArray ->
     toFeatures bad = Normal [] /\
     forall evs1 evs2,
       flatMap toFeatures (evs1 ++ bad :: evs2) =
       flatMap toFeatures (evs1 ++ evs2)) /\
  (isArray (EonetGeometry.coordinates lp) = true ->
   parseDate (EonetGeometry.date lp) = None ->
     toFeatures bad = Throw "Invalid time value" /\
     forall evs1 evs2 fs,
       flatMap toFeatures evs1 = Normal fs ->
       flatMap toFeatures (evs1 ++ bad :: evs2) = Throw "Invalid time value").
Proof.
  intros L. split.
  - intros C.
    assert (E : toFeatures bad = Normal []).
    { unfold eventToFeatures. rewrite L, C. reflexivity. }
    split; [exact E|]. intros evs1 evs2. now apply flatMap_skip.
  - intros A D.
    assert (E : toFeatures bad = Throw "Invalid time value").
    { unfold eventToFeatures. rewrite L, A, D. reflexivity. }
    split; [exact E|]. intros evs1 evs2 fs F.
    rewrite flatMap_app, F. simpl. rewrite E. reflexivity.
Qed.

(** C3. An event whose geometry entries are all Polygons yields no
    feature and no error: the normaliser returns the empty list for it,
    and a batch is processed as without it. *)
Theorem polygon_only_event_yields_nothing (ev : EonetEvent.t) :
  (forall g, In g (EonetEvent.geometry ev) -> EonetGeometry.type g = Polygon) ->
  toFeatures ev = Normal [] /\
  forall evs1 evs2,
    flatMap toFeatures (evs1 ++ ev :: evs2) = flatMap toFeatures (evs1 ++ evs2).
Proof.
  intros H.
  assert (E : toFeatures ev = Normal []).
  { unfold eventToFeatures. now rewrite (lastPoint_None ev H). }
  split; [exact E|]. intros evs1 evs2. now apply flatMap_skip.
Qed.

(** C9. The features come in the order of the events: whenever the
    normaliser returns, its features are, one for one and in order,
    those of the representable events of the input; it returns whenever
    the date of every selected Point entry parses; nothing is merged by
    id, two events with the same id give two features. *)
Theorem features_follow_event_order :
  (forall evs features,
     flatMap toFeatures evs = Normal features ->
     Forall2 (fun ev f => toFeatures ev = Normal [f] /\
                          Feature.id (Feature.properties f) = EonetEvent.id ev)
             (List.filter representable evs) features) /\
  (forall evs,
     (forall ev lp, In ev evs -> lastPoint ev = Some lp ->
        parseDate (EonetGeometry.date lp) <> None) ->
     exists features, flatMap toFeatures evs = Normal features) /\
  (forall ev1 ev2 f1 f2,
     EonetEvent.id ev1 = EonetEvent.id ev2 ->
     toFeatures ev1 = Normal [f1] -> toFeatures ev2 = Normal [f2] ->
     flatMap toFeatures [ev1; ev2] = Normal [f1; f2] /\
     Feature.id (Feature.properties f1) = Feature.id (Feature.properties f2)).
Proof.
  split; [|split].
  - induction evs as [|ev evs IH]; simpl.
    + intros features [= <-]. constructor.
    + intros features. destruct (toFeatures ev) as [ys|m] eqn:E; simpl; [|discriminate].
      destruct (flatMap _ evs) as [zs|m]; simpl; [|discriminate].
      intros [= <-].
      destruct (eventToFeatures_Normal ev ys E) as [[R ->]|[R (lp & latest & L & ->)]];
        rewrite R; simpl.
      * now apply IH.
      * constructor; [|now apply IH]. split; [exact E | reflexivity].
  - induction evs as [|ev evs IH]; intros H; simpl.
    + now exists [].
    + destruct IH as [zs Z]. { intros e lp I. apply H. now right. }
      rewrite Z. unfold eventToFeatures.
      destruct (lastPoint ev) as [lp|] eqn:L; [|now eexists].
      destruct (isArray _); simpl; [|now eexists].
      destruct (parseDate (EonetGeometry.date lp)) as [t|] eqn:D.
      * simpl. now eexists.
      * exfalso. exact (H ev lp (or_introl eq_refl) L D).
  - intros ev1 ev2 f1 f2 I E1 E2. simpl. rewrite E1, E2. simpl.
    split; [reflexivity|].
    destruct (eventToFeatures_Normal ev1 [f1] E1) as [[_ C]|[_ (? & ? & _ & C1)]];
      [discriminate C|].
    destruct (eventToFeatures_Normal ev2 [f2] E2) as [[_ C]|[_ (? & ? & _ & C2)]];
      [discriminate C|].
    injection C1 as ->. injection C2 as ->. exact I.
Qed.

End NormalizerFacts.

(** ** The query builder *)

Section QueryFacts.

Variable localOffset : Z -> Z.

Lemma format_day (t y m d : Z) :
  localDay localOffset t = (y, m, d) ->
  format localOffset (Some t) yyyy_MM_dd =
  Normal (addLeadingZeros (eraYear y) 4 +:+ "-" +:+ addLeadingZeros m 2 +:+ "-"
          +:+ addLeadingZeros d 2).
Proof.
  unfold localDay, format, fieldsOf. intros ->. reflexivity.
Qed.

Lemma queryParams_of_dates (start end_ : Date) (cat s e : string) :
  format localOffset start yyyy_MM_dd = Normal s ->
  format localOffset end_ yyyy_MM_dd = Normal e ->
  queryParams localOffset start end_ cat =
  Normal ([("status", "open"); ("start", s); ("end", e)] ++
          (if String.eqb cat "" then [] else [("category", cat)]) ++
          [("limit", "250")]).
Proof.
  intros S E. unfold queryParams. rewrite S. simpl. rewrite E. simpl.
  destruct (String.eqb cat ""); reflexivity.
Qed.

(** C5. For the filter state whose start shows the local day 2024-01-01,
    whose end shows 2024-01-31 and whose category is empty, the URL is
    the events endpoint with the query
    [status=open&start=2024-01-01&end=2024-01-31&limit=250], which has
    no [category]. For all valid dates and every category the parameters
    are status, start, end, then category exactly when the selected
    category is not empty, then limit, and the URL is their
    serialisation: [&category=...] stands between the end date and
    [&limit=250] for a selected category, and nothing stands there
    otherwise. *)
Theorem queryUrl_category_iff_selected :
  (forall s e,
     localDay localOffset s = (2024, 1, 1) ->
     localDay localOffset e = (2024, 1, 31) ->
     exists url,
       queryUrl localOffset (Some s) (Some e) "" = Normal url /\
       url = "https://eonet.gsfc.nasa.gov/api/v3/events?status=open&start=2024-01-01&end=2024-01-31&limit=250" /\
       includes url "status=open&start=2024-01-01&end=2024-01-31&limit=250" = true /\
       includes url "category" = false) /\
  (forall s e cat,
     exists fs fe params,
       format localOffset (Some s) yyyy_MM_dd = Normal fs /\
       format localOffset (Some e) yyyy_MM_dd = Normal fe /\
       params = [("status", "open"); ("start", fs); ("end", fe)] ++
                (if String.eqb cat "" then [] else [("category", cat)]) ++
                [("limit", "250")] /\
       queryParams localOffset (Some s) (Some e) cat = Normal params /\
       queryUrl localOffset (Some s) (Some e) cat =
         Normal (EONET_BASE +:+ "/events?" +:+ URLSearchParams.toString params) /\
       queryUrl localOffset (Some s) (Some e) cat =
         Normal ("https://eonet.gsfc.nasa.gov/api/v3/events?status=open&start=" +:+
                 URLSearchParams.encode fs +:+ "&end=" +:+
                 URLSearchParams.encode fe +:+
                 (if String.eqb cat "" then ""
                  else "&category=" +:+ URLSearchParams.encode cat) +:+
                 "&limit=250") /\
       (URLSearchParams.has "category" params = true <-> cat <> "")).
Proof.
  split.
  - intros s e Hs He. eexists. split; [|split; [reflexivity|]].
    + unfold queryUrl.
      rewrite (queryParams_of_dates _ _ _ _ _ (format_day _ _ _ _ Hs)
                 (format_day _ _ _ _ He)).
      vm_compute. reflexivity.
    + split; vm_compute; reflexivity.
  - intros s e cat. do 3 eexists.
    split; [reflexivity|]. split; [reflexivity|]. split; [reflexivity|].
    assert (Q := queryParams_of_dates (Some s) (Some e) cat _ _ eq_refl eq_refl).
    split; [exact Q|]. split; [|split].
    + unfold queryUrl. rewrite Q. reflexivity.
    + unfold queryUrl. rewrite Q. unfold bindC. f_equal.
      destruct (String.eqb cat "");
        cbn [app map fst snd URLSearchParams.toString String.concat];
        rewrite !append_assoc; reflexivity.
    + destruct (String.eqb cat "") eqn:C.
      * apply String.eqb_eq in C. subst cat. simpl. split; [discriminate | congruence].
      * apply String.eqb_neq in C. simpl. split; [intros _; exact C | reflexivity].
Qed.

End QueryFacts.

(** ** The loading effect *)

Section EffectFacts.

Variable localOffset : Z -> Z.
Variable parseDate : string -> Date.
Variable LngLatBounds : Type.
Variable emptyBounds : LngLatBounds.
Variable extend : LngLatBounds -> Coordinates -> Completion LngLatBounds.

Local Abbreviation toFeatures := (eventToFeatures localOffset parseDate).
Local Abbreviation load := (loadEvents localOffset parseDate emptyBounds extend).

Lemma fetchJson_failed {T : Type} (outcome : FetchOutcome T) (message : string) :
  FetchFailed outcome message -> fetchJson outcome = Throw message.
Proof.
  intros [m|status body H|status m H]; simpl; try rewrite H; reflexivity.
Qed.

(** C7. When the request fails (no response, a status outside 200-299,
    or a body that is not JSON), the loading effect shows an error
    message that is not empty (the message of the failure, or
    "Falha ao carregar dados" when that is empty) and leaves the map as
    it was: the data of its event source and its viewport requests are
    unchanged, and so is the event count. *)
Theorem failed_fetch_keeps_displayed_data
    (outcome : FetchOutcome EventsResponse) (message : string)
    (st : AppState LngLatBounds) (map : MapWidget LngLatBounds) :
  FetchFailed outcome message ->
  mapRef st = Some map ->
  let st' := load outcome st in
  mapRef st' = Some map /\
  error st' = Some (if String.eqb message "" then "Falha ao carregar dados"
                    else message) /\
  (exists shown, error st' = Some shown /\ shown <> "") /\
  eventCount st' = eventCount st /\
  loading st' = false.
Proof.
  intros F M. apply fetchJson_failed in F.
  unfold loadEvents, settle, finally, catch, bind, lift, onError, setError,
    setLoading. rewrite M. simpl. rewrite F. simpl.
  split; [reflexivity|]. split; [reflexivity|].
  split; [|split; reflexivity].
  destruct (String.eqb message "") eqn:E; eexists; (split; [reflexivity|]).
  - discriminate.
  - now apply String.eqb_neq.
Qed.

(** When the request succeeds and the events normalise to a feature
    set, the loading effect replaces the data of the map's event source
    by that set and records its size. For an empty set the viewport
    requests stay as they were. For a non-empty set, when the bounds
    extended from the empty bounds by the coordinates of every feature
    are accepted, one animated [fitBounds] request for them is added
    (padding 40, duration 800). *)
Lemma successful_fetch_replaces_source
    (status : Z) (response : EventsResponse) (features : list Feature.t)
    (st : AppState LngLatBounds) (map : MapWidget LngLatBounds) :
  ok status = true ->
  mapRef st = Some map ->
  flatMap toFeatures (events response) = Normal features ->
  let st' := load (Response status (Parsed response)) st in
  option_map eonetEvents (mapRef st') = Some features /\
  eventCount st' = length features /\
  (features = [] ->
     mapRef st' = Some {| eonetEvents := []; fitBoundsCalls := fitBoundsCalls map |}) /\
  (features <> [] -> forall b,
     extendAll extend emptyBounds features = Normal b ->
     mapRef st' =
     Some {| eonetEvents := features;
             fitBoundsCalls :=
               fitBoundsCalls map ++
               [ {| bounds := b; padding := 40; duration := 800 |} ] |}).
Proof.
  intros O M N.
  unfold loadEvents, settle, finally, catch, bind, lift, onEvents, bind, lift,
    onMap, setEventCount, setError, setLoading, ret, fetchJson.
  rewrite M, O. simpl. rewrite N. simpl.
  destruct features as [|f fs]; simpl.
  - repeat split; try reflexivity. intros C. now contradiction C.
  - destruct (bindC (extend emptyBounds (Feature.coordinates f)) _) as [b|m] eqn:X;
      simpl; (split; [reflexivity|]); (split; [reflexivity|]);
      (split; [discriminate|]); intros _ b'; [intros [= <-]; reflexivity | discriminate].
Qed.

End EffectFacts.

(** * The scenarios *)

Import Scenario.

Lemma point_event_yields_last_point_feature_witness :
  (exists g, In g (EonetEvent.geometry sortedEvent) /\ EonetGeometry.type g = Point) /\
  exists before lp after,
    EonetEvent.geometry sortedEvent = before ++ lp :: after /\
    EonetGeometry.type lp = Point /\
    (forall h, In h after -> EonetGeometry.type h = Polygon) /\
    (forall t,
       isArray (EonetGeometry.coordinates lp) = true ->
       parseDateOnly (EonetGeometry.date lp) = Some t ->
       exists f, toFeatures sortedEvent = Normal [f] /\
                 Feature.coordinates f = EonetGeometry.coordinates lp) /\
    (forall t,
       Chronological parseDateOnly (EonetEvent.geometry sortedEvent) ->
       parseDateOnly (EonetGeometry.date lp) = Some t ->
       MostRecentPoint parseDateOnly (EonetEvent.geometry sortedEvent) lp).
Proof.
  assert (H : exists g, In g (EonetEvent.geometry sortedEvent) /\
                        EonetGeometry.type g = Point).
  { exists (point "2024-01-01" 10%float 20%float).
    split; [left; reflexivity | reflexivity]. }
  split; [exact H|].
  exact (point_event_yields_last_point_feature utc parseDateOnly sortedEvent H).
Defined.

(** C1 as stated fails on a sequence that is not sorted by date: of the
    Point entries dated 2024-01-15 at [11, 21] and 2024-01-01 at [10, 20],
    in this order, the feature gets the coordinates [10, 20] of the entry
    that comes last, not those of the most recently dated entry. *)
Lemma unsorted_event_most_recent_point_not_selected :
  exists f,
    toFeatures unsortedEvent = Normal [f] /\
    Feature.coordinates f = Position [10; 20]%float /\
    MostRecentPoint parseDateOnly (EonetEvent.geometry unsortedEvent)
      (point "2024-01-15" 11%float 21%float) /\
    forall g, MostRecentPoint parseDateOnly (EonetEvent.geometry unsortedEvent) g ->
      EonetGeometry.coordinates g = Position [11; 21]%float /\
      Feature.coordinates f <> EonetGeometry.coordinates g.
Proof.
  assert (D15 : parseDateOnly "2024-01-15" = Some 1705276800000)
    by (vm_compute; reflexivity).
  assert (D01 : parseDateOnly "2024-01-01" = Some 1704067200000)
    by (vm_compute; reflexivity).
  exists (featureOf unsortedEvent (point "2024-01-01" 10%float 20%float)
            "2024-01-01 00:00").
  split; [vm_compute; reflexivity|]. split; [reflexivity|]. split.
  - split; [left; reflexivity|]. split; [reflexivity|].
    exists 1705276800000. split; [exact D15|].
    intros h t' [<-|[<-|[]]] _ P.
    + change (parseDateOnly "2024-01-15" = Some t') in P.
      rewrite D15 in P. injection P as <-. lia.
    + change (parseDateOnly "2024-01-01" = Some t') in P.
      rewrite D01 in P. injection P as <-. lia.
  - intros g (I & _ & t & D & M).
    destruct I as [<-|[<-|[]]].
    + split; [reflexivity|]. intros C. discriminate C.
    + exfalso.
      change (parseDateOnly "2024-01-01" = Some t) in D.
      rewrite D01 in D. injection D as <-.
      assert (L := M (point "2024-01-15" 11%float 21%float) 1705276800000
                     (or_introl eq_refl) eq_refl D15).
      lia.
Defined.

Lemma malformed_event_handling_witness :
  (lastPoint noCoordinatesEvent =
     Some (EonetGeometry.make None None "2024-01-10" Point NotAnArray) /\
   toFeatures noCoordinatesEvent = Normal [] /\
   flatMap toFeatures ([sortedEvent] ++ noCoordinatesEvent :: [unsortedEvent]) =
   flatMap toFeatures ([sortedEvent] ++ [unsortedEvent])) /\
  (lastPoint badDateEvent = Some (point "not a date" 12%float 22%float) /\
   parseDateOnly "not a date" = None /\
   toFeatures badDateEvent = Throw "Invalid time value" /\
   flatMap toFeatures ([sortedEvent] ++ badDateEvent :: [unsortedEvent]) =
   Throw "Invalid time value").
Proof.
  split.
  - assert (L : lastPoint noCoordinatesEvent =
                Some (EonetGeometry.make None None "2024-01-10" Point NotAnArray))
      by reflexivity.
    split; [exact L|].
    destruct (proj1 (malformed_event_handling utc parseDateOnly _ _ L) eq_refl)
      as [E B].
    split; [exact E | exact (B [sortedEvent] [unsortedEvent])].
  - assert (L : lastPoint badDateEvent = Some (point "not a date" 12%float 22%float))
      by reflexivity.
    split; [exact L|]. split; [reflexivity|].
    destruct (proj2 (malformed_event_handling utc parseDateOnly _ _ L)
                eq_refl eq_refl) as [E B].
    split; [exact E|].
    refine (B [sortedEvent] [unsortedEvent] _ _). vm_compute. reflexivity.
Defined.

(** C2. An event whose Point entry has no coordinate array is left out of
    the batch, as the claim says. An event whose Point entry has a date
    that does not parse is not: in the batch of a well-formed event, an
    event whose Point entry is dated "not a date", and another
    well-formed event, the normaliser throws "Invalid time value" at the
    second event, and neither well-formed event gets a feature, although
    each of them alone yields one and the two of them yield two. *)
Theorem unparseable_date_aborts_batch :
  flatMap toFeatures [sortedEvent; noCoordinatesEvent; unsortedEvent] =
    flatMap toFeatures [sortedEvent; unsortedEvent] /\
  parseDateOnly "not a date" = None /\
  toFeatures badDateEvent = Throw "Invalid time value" /\
  flatMap toFeatures [sortedEvent; badDateEvent; unsortedEvent] =
    Throw "Invalid time value" /\
  (exists f, toFeatures sortedEvent = Normal [f]) /\
  (exists f, toFeatures unsortedEvent = Normal [f]) /\
  exists fs, flatMap toFeatures [sortedEvent; unsortedEvent] = Normal fs /\
             length fs = 2%nat.
Proof.
  split; [vm_compute; reflexivity|].
  split; [vm_compute; reflexivity|].
  split; [vm_compute; reflexivity|].
  split; [vm_compute; reflexivity|].
  split; [eexists; vm_compute; reflexivity|].
  split; [eexists; vm_compute; reflexivity|].
  eexists. split; [vm_compute; reflexivity | reflexivity].
Qed.

Lemma polygon_only_event_yields_nothing_witness :
  (forall g, In g (EonetEvent.geometry polygonEvent) ->
     EonetGeometry.type g = Polygon) /\
  toFeatures polygonEvent = Normal [] /\
  flatMap toFeatures ([sortedEvent] ++ polygonEvent :: [unsortedEvent]) =
  flatMap toFeatures ([sortedEvent] ++ [unsortedEvent]).
Proof.
  assert (H : forall g, In g (EonetEvent.geometry polygonEvent) ->
                        EonetGeometry.type g = Polygon).
  { intros g [<-|[]]. reflexivity. }
  split; [exact H|].
  destruct (polygon_only_event_yields_nothing utc parseDateOnly polygonEvent H)
    as [E B].
  split; [exact E | exact (B [sortedEvent] [unsortedEvent])].
Defined.

Lemma features_follow_event_order_witness :
  EonetEvent.id sortedEvent = EonetEvent.id sameIdEvent /\
  exists f1 f2,
    toFeatures sortedEvent = Normal [f1] /\
    toFeatures sameIdEvent = Normal [f2] /\
    f1 <> f2 /\
    flatMap toFeatures [sortedEvent; sameIdEvent] = Normal [f1; f2] /\
    Feature.id (Feature.properties f1) = Feature.id (Feature.properties f2).
Proof.
  split; [reflexivity|].
  pose (f1 := featureOf sortedEvent (point "2024-01-15" 11%float 21%float)
                "2024-01-15 00:00").
  pose (f2 := featureOf sameIdEvent (point "2024-01-20" 13%float 23%float)
                "2024-01-20 00:00").
  assert (E1 : toFeatures sortedEvent = Normal [f1]) by (vm_compute; reflexivity).
  assert (E2 : toFeatures sameIdEvent = Normal [f2]) by (vm_compute; reflexivity).
  exists f1, f2. split; [exact E1|]. split; [exact E2|].
  split; [intros C; discriminate C|].
  exact (proj2 (proj2 (features_follow_event_order utc parseDateOnly))
           sortedEvent sameIdEvent f1 f2 eq_refl E1 E2).
Defined.

Lemma queryUrl_category_iff_selected_witness :
  localDay brasilia 1704078000000 = (2024, 1, 1) /\
  localDay brasilia 1706713200000 = (2024, 1, 31) /\
  exists url,
    queryUrl brasilia (Some 1704078000000) (Some 1706713200000) "" = Normal url /\
    url = "https://eonet.gsfc.nasa.gov/api/v3/events?status=open&start=2024-01-01&end=2024-01-31&limit=250" /\
    includes url "status=open&start=2024-01-01&end=2024-01-31&limit=250" = true /\
    includes url "category" = false.
Proof.
  assert (S : localDay brasilia 1704078000000 = (2024, 1, 1)) by reflexivity.
  assert (E : localDay brasilia 1706713200000 = (2024, 1, 31)) by reflexivity.
  split; [exact S|]. split; [exact E|].
  exact (proj1 (queryUrl_category_iff_selected brasilia) _ _ S E).
Defined.

Lemma failed_fetch_keeps_displayed_data_witness :
  let outcome : FetchOutcome EventsResponse :=
    Response 404 (Parsed {| events := [sortedEvent] |}) in
  FetchFailed outcome "HTTP 404" /\
  mapRef shownState = Some shownMap /\
  mapRef (load outcome shownState) = Some shownMap /\
  error (load outcome shownState) = Some "HTTP 404" /\
  (exists shown, error (load outcome shownState) = Some shown /\ shown <> "") /\
  eventCount (load outcome shownState) = eventCount shownState /\
  loading (load outcome shownState) = false.
Proof.
  intros outcome.
  assert (F : FetchFailed outcome "HTTP 404").
  { exact (failed_status 404 (Parsed {| events := [sortedEvent] |}) eq_refl). }
  split; [exact F|]. split; [reflexivity|].
  exact (failed_fetch_keeps_displayed_data utc parseDateOnly (option Box) None
           extendBox outcome "HTTP 404" shownState shownMap F eq_refl).
Defined.

Lemma successful_fetch_replaces_source_witness :
  let response := {| events := [sortedEvent; polygonEvent; unsortedEvent] |} in
  let features :=
    [ featureOf sortedEvent (point "2024-01-15" 11%float 21%float) "2024-01-15 00:00";
      featureOf unsortedEvent (point "2024-01-01" 10%float 20%float) "2024-01-01 00:00" ] in
  let box := Some {| west := 10%float; south := 20%float;
                     east := 11%float; north := 21%float |} in
  ok 200 = true /\
  mapRef shownState = Some shownMap /\
  flatMap toFeatures (events response) = Normal features /\
  features <> [] /\
  extendAll extendBox None features = Normal box /\
  mapRef (load (Response 200 (Parsed response)) shownState) =
  Some {| eonetEvents := features;
          fitBoundsCalls := [ {| bounds := box; padding := 40; duration := 800 |} ] |}.
Proof.
  intros response features box.
  assert (N : flatMap toFeatures (events response) = Normal features)
    by (vm_compute; reflexivity).
  assert (D : features <> []) by discriminate.
  assert (X : extendAll extendBox None features = Normal box)
    by (vm_compute; reflexivity).
  split; [reflexivity|]. split; [reflexivity|]. split; [exact N|].
  split; [exact D|]. split; [exact X|].
  exact (proj2 (proj2 (proj2
           (successful_fetch_replaces_source utc parseDateOnly (option Box) None
              extendBox 200 response features shownState shownMap
              eq_refl eq_refl N))) D box X).
Defined.

(** C8. A fetch that succeeds does not always replace the data of the
    map's source: the response has the status 200 and a JSON body, one
    of its events has a Point entry dated "not a date", the normaliser
    throws before [setData] is reached, and the map keeps the feature of
    the earlier load; no fit is requested, the count stays, and the error
    "Invalid time value" is shown. Without that event the same fetch
    replaces the data. *)
Theorem successful_fetch_with_bad_date_keeps_old_source :
  let response := {| events := [sortedEvent; badDateEvent] |} in
  let outcome := Response 200 (Parsed response) in
  fetchJson outcome = Normal response /\
  flatMap toFeatures (events response) = Throw "Invalid time value" /\
  mapRef (load outcome shownState) = Some shownMap /\
  option_map eonetEvents (mapRef (load outcome shownState)) = Some [oldFeature] /\
  eventCount (load outcome shownState) = eventCount shownState /\
  error (load outcome shownState) = Some "Invalid time value" /\
  option_map eonetEvents
    (mapRef (load (Response 200 (Parsed {| events := [sortedEvent] |})) shownState)) =
  Some [ featureOf sortedEvent (point "2024-01-15" 11%float 21%float)
           "2024-01-15 00:00" ].
Proof.
  intros response outcome.
  split; [reflexivity|]. split; [vm_compute; reflexivity|].
  split; [vm_compute; reflexivity|]. split; [vm_compute; reflexivity|].
  split; [vm_compute; reflexivity|]. split; vm_compute; reflexivity.
Qed.

(** * Further properties *)

(** ** Calendar arithmetic *)

Section CalendarFacts.

Lemma holdsBelow_spec (n : N) (p : Z -> bool) :
  holdsBelow n p = true -> forall k, 0 <= k < Z.of_N n -> p k = true.
Proof.
  unfold holdsBelow.
  set (f := fun st : Z * bool => (fst st + 1, snd st && p (fst st))).
  assert (I : fst (N.iter n f (0, true)) = Z.of_N n /\
              (snd (N.iter n f (0, true)) = true ->
               forall k, 0 <= k < Z.of_N n -> p k = true)).
  { induction n as [|n [F S]] using N.peano_ind.
    - split; [reflexivity|]. intros _ k Hk. lia.
    - rewrite N.iter_succ. unfold f at 1 3. cbn [fst snd]. split.
      + rewrite F. lia.
      + intros [A B]%andb_prop k Hk. rewrite F in B.
        destruct (Z.eq_dec k (Z.of_N n)) as [->|Ne]; [exact B|].
        apply (S A). lia. }
  exact (proj2 I).
Qed.

Lemma civilCheck_era (doe : Z) : 0 <= doe < 146097 -> civilCheck doe = true.
Proof.
  apply (holdsBelow_spec 146097 civilCheck). vm_compute. reflexivity.
Qed.

Lemma isLeapYear_era (y k : Z) :
  Scenario.isLeapYear (y + k * 400) = Scenario.isLeapYear y.
Proof.
  unfold Scenario.isLeapYear.
  replace ((y + k * 400) mod 4) with (y mod 4)
    by (replace (y + k * 400) with (y + (k * 100) * 4) by lia;
        now rewrite Z.mod_add).
  replace ((y + k * 400) mod 100) with (y mod 100)
    by (replace (y + k * 400) with (y + (k * 4) * 100) by lia;
        now rewrite Z.mod_add).
  now rewrite Z.mod_add.
Qed.

(** The day number of the civil date of a day number is that day number,
    and the civil date is a date of the calendar. *)
Lemma civilFromDays_inverse (z y m d : Z) :
  civilFromDays z = (y, m, d) ->
  daysFromCivil y m d = z /\ 1 <= m <= 12 /\ 1 <= d <= Scenario.daysInMonth y m.
Proof.
  unfold civilFromDays.
  assert (R : 0 <= (z + 719468) mod 146097 < 146097)
    by (apply Z.mod_pos_bound; lia).
  assert (E := Z.div_mod (z + 719468) 146097 ltac:(lia)).
  set (era := (z + 719468) / 146097) in *.
  set (doe := (z + 719468) mod 146097) in *.
  assert (C := civilCheck_era doe R). unfold civilCheck in C. cbv zeta in *.
  set (yoe := (doe - doe / 1460 + doe / 36524 - doe / 146096) / 365) in *.
  set (doy := doe - (365 * yoe + yoe / 4 - yoe / 100)) in *.
  set (mp := (5 * doy + 2) / 153) in *.
  set (dd := doy - (153 * mp + 2) / 5 + 1) in *.
  set (mm := if mp <? 10 then mp + 3 else mp - 9) in *.
  repeat (apply andb_prop in C as [C ?]).
  repeat match goal with
         | H : (_ <=? _) = true |- _ => apply Z.leb_le in H
         | H : (_ =? _) = true |- _ => apply Z.eqb_eq in H
         end.
  intros [= <- <- <-].
  assert (M : 1 <= mm <= 12 /\ (if 2 <? mm then mm - 3 else mm + 9) = mp).
  { unfold mm. destruct (mp <? 10) eqn:L;
      [apply Z.ltb_lt in L | apply Z.ltb_ge in L];
      (destruct (2 <? _) eqn:T; [apply Z.ltb_lt in T | apply Z.ltb_ge in T]); lia. }
  destruct M as [M1 M2].
  assert (Y : (if mm <=? 2 then yoe + era * 400 + 1 else yoe + era * 400) =
              (if mm <=? 2 then yoe + 1 else yoe) + era * 400)
    by (destruct (mm <=? 2); lia).
  split; [|split; [exact M1|]].
  - unfold daysFromCivil. cbv zeta. rewrite M2.
    replace (if mm <=? 2
             then (if mm <=? 2 then yoe + era * 400 + 1 else yoe + era * 400) - 1
             else (if mm <=? 2 then yoe + era * 400 + 1 else yoe + era * 400))
      with (yoe + era * 400) by (destruct (mm <=? 2); lia).
    rewrite Z.div_add, Z.mod_add by lia.
    rewrite (Z.div_small yoe 400), (Z.mod_small yoe 400) by lia.
    lia.
  - rewrite Y. unfold Scenario.daysInMonth in *. rewrite isLeapYear_era. lia.
Qed.

End CalendarFacts.

(** ** The date strings *)

Section DateStringFacts.

Lemma spellsFour_showInt (y : Z) :
  1000 <= y <= 9999 -> spellsFour (showInt y) y = true.
Proof.
  intros H.
  pose proof (holdsBelow_spec 10000
                (fun n => (n <? 1000) || spellsFour (showInt n) n)
                ltac:(vm_compute; reflexivity) y ltac:(lia)) as C.
  cbv beta in C. destruct (y <? 1000) eqn:L; [apply Z.ltb_lt in L; lia | exact C].
Qed.

Lemma spellsTwo_padStart (n : Z) :
  0 <= n <= 99 -> spellsTwo (padStart (showInt n) 2) n = true.
Proof.
  intros H.
  apply (holdsBelow_spec 100 (fun n => spellsTwo (padStart (showInt n) 2) n));
    [vm_compute; reflexivity | lia].
Qed.

Lemma daysInMonth_le_31 (y m : Z) : Scenario.daysInMonth y m <= 31.
Proof.
  unfold Scenario.daysInMonth.
  destruct (m =? 2); [destruct (Scenario.isLeapYear y); lia|].
  destruct (_ || _); lia.
Qed.

Lemma timeClip_in_range (t : Z) :
  Z.abs t <= 8640000000000000 -> timeClip t = Some t.
Proof. intros H. unfold timeClip. apply Z.leb_le in H. now rewrite H. Qed.

Lemma day_of_midnight (d : Z) : day (d * msPerDay) = d.
Proof. unfold day, msPerDay. now rewrite Z.div_mul. Qed.

Lemma daysFromCivil_first (y m d : Z) :
  daysFromCivil y m d = daysFromCivil y m 1 + d - 1.
Proof. unfold daysFromCivil. cbv zeta. lia. Qed.

(** The date-only parser reads the four digits of a year, the two of a
    month and the two of a day of a calendar date as that day. *)
Lemma parseDateOnly_spelled (ys ms ds : string) (y m d : Z) :
  spellsFour ys y = true -> spellsTwo ms m = true -> spellsTwo ds d = true ->
  1 <= m <= 12 -> 1 <= d <= Scenario.daysInMonth y m ->
  parseDateOnly (ys +:+ "-" +:+ ms +:+ "-" +:+ ds) =
  Some (daysFromCivil y m d * msPerDay).
Proof.
  intros Sy Sm Sd Hm Hd.
  destruct ys as [|a [|b [|c [|e [|? ?]]]]]; try discriminate Sy.
  destruct ms as [|m1 [|m2 [|? ?]]]; try discriminate Sm.
  destruct ds as [|d1 [|d2 [|? ?]]]; try discriminate Sd.
  unfold spellsFour in Sy. unfold spellsTwo in Sm, Sd.
  destruct (Scenario.digit a) as [xa|] eqn:Da; [|discriminate Sy].
  destruct (Scenario.digit b) as [xb|] eqn:Db; [|discriminate Sy].
  destruct (Scenario.digit c) as [xc|] eqn:Dc; [|discriminate Sy].
  destruct (Scenario.digit e) as [xe|] eqn:De; [|discriminate Sy].
  destruct (Scenario.digit m1) as [xm1|] eqn:Dm1; [|discriminate Sm].
  destruct (Scenario.digit m2) as [xm2|] eqn:Dm2; [|discriminate Sm].
  destruct (Scenario.digit d1) as [xd1|] eqn:Dd1; [|discriminate Sd].
  destruct (Scenario.digit d2) as [xd2|] eqn:Dd2; [|discriminate Sd].
  apply Z.eqb_eq in Sy, Sm, Sd.
  change (String a (String b (String c (String e ""))) +:+ "-" +:+
          String m1 (String m2 "") +:+ "-" +:+ String d1 (String d2 ""))
    with (String a (String b (String c (String e (String "-"
           (String m1 (String m2 (String "-" (String d1 (String d2 "")))))))))).
  unfold parseDateOnly.
  rewrite Da, Db, Dc, De, Dm1, Dm2, Dd1, Dd2, Sy, Sm, Sd.
  change (Ascii.eqb "-" "-") with true. cbn [andb].
  destruct Hm as [Hm1 Hm2], Hd as [Hd1 Hd2].
  apply Z.leb_le in Hm1, Hm2, Hd1, Hd2.
  rewrite Hm1, Hm2, Hd1, Hd2. reflexivity.
Qed.

Lemma formatDateForGibs_parsed (t : Z) :
  1000 <= yearFromTime t <= 9999 ->
  parseDateOnly (formatDateForGibs (Some t)) = Some (day t * msPerDay).
Proof.
  intros Hy. unfold formatDateForGibs, getUTCFullYear, getUTCMonth, getUTCDate,
    numberToString, option_map, yearFromTime, monthFromTime, dateFromTime in *.
  destruct (civilFromDays (day t)) as [[y m] d] eqn:C.
  destruct (civilFromDays_inverse _ _ _ _ C) as (I & Hm & Hd).
  replace (m - 1 + 1) with m by lia.
  pose proof (daysInMonth_le_31 y m) as L.
  rewrite (parseDateOnly_spelled _ _ _ y m d); [now rewrite I | | | | lia | lia].
  - now apply spellsFour_showInt.
  - apply spellsTwo_padStart. lia.
  - apply spellsTwo_padStart. lia.
Qed.

Lemma spelled_length (ys ms ds : string) (y m d : Z) :
  spellsFour ys y = true -> spellsTwo ms m = true -> spellsTwo ds d = true ->
  String.length (ys +:+ "-" +:+ ms +:+ "-" +:+ ds) = 10%nat.
Proof.
  intros Sy Sm Sd.
  destruct ys as [|a [|b [|c [|e [|? ?]]]]]; try discriminate Sy.
  destruct ms as [|m1 [|m2 [|? ?]]]; try discriminate Sm.
  destruct ds as [|d1 [|d2 [|? ?]]]; try discriminate Sd.
  reflexivity.
Qed.

(** X1. For a date whose UTC year has four digits, [formatDateForGibs]
    gives the ten code units YYYY-MM-DD of its UTC day: read back as a
    date-only string they are UTC midnight of that day, so two dates get
    the same string exactly when they fall on the same UTC day. *)
Theorem formatDateForGibs_names_utc_day (t : Z) :
  1000 <= yearFromTime t <= 9999 ->
  String.length (formatDateForGibs (Some t)) = 10%nat /\
  parseDateOnly (formatDateForGibs (Some t)) = Some (day t * msPerDay) /\
  (forall u, 1000 <= yearFromTime u <= 9999 ->
     (formatDateForGibs (Some t) = formatDateForGibs (Some u) <-> day t = day u)).
Proof.
  intros Hy. split; [|split].
  - unfold formatDateForGibs, getUTCFullYear, getUTCMonth, getUTCDate,
      numberToString, option_map, yearFromTime, monthFromTime, dateFromTime in *.
    destruct (civilFromDays (day t)) as [[y m] d] eqn:C.
    destruct (civilFromDays_inverse _ _ _ _ C) as (_ & Hm & Hd).
    pose proof (daysInMonth_le_31 y m) as L.
    apply (spelled_length _ _ _ y (m - 1 + 1) d).
    + now apply spellsFour_showInt.
    + apply spellsTwo_padStart. lia.
    + apply spellsTwo_padStart. lia.
  - now apply formatDateForGibs_parsed.
  - intros u Hu. split.
    + intros E. pose proof (formatDateForGibs_parsed t Hy) as Pt.
      rewrite E, (formatDateForGibs_parsed u Hu) in Pt.
      injection Pt as Pt. unfold msPerDay in Pt. lia.
    + intros E. unfold formatDateForGibs, getUTCFullYear, getUTCMonth, getUTCDate,
        option_map, yearFromTime, monthFromTime, dateFromTime. now rewrite E.
Qed.

Lemma formatDateForGibs_names_utc_day_witness :
  1000 <= yearFromTime 1717243200123 <= 9999 /\
  formatDateForGibs (Some 1717243200123) = "2024-06-01" /\
  parseDateOnly (formatDateForGibs (Some 1717243200123)) =
  Some (day 1717243200123 * msPerDay).
Proof.
  assert (H : 1000 <= yearFromTime 1717243200123 <= 9999)
    by (vm_compute; split; discriminate).
  split; [exact H|]. split; [vm_compute; reflexivity|].
  exact (proj1 (proj2 (formatDateForGibs_names_utc_day 1717243200123 H))).
Defined.

Lemma formatDateForGibs_day (t u : Z) :
  day t = day u -> formatDateForGibs (Some t) = formatDateForGibs (Some u).
Proof.
  intros E. unfold formatDateForGibs, getUTCFullYear, getUTCMonth, getUTCDate,
    option_map, yearFromTime, monthFromTime, dateFromTime. now rewrite E.
Qed.

Lemma makeDay_of_civil (z y m d dt : Z) :
  civilFromDays z = (y, m, d) -> makeDay y (m - 1) dt = z + (dt - d).
Proof.
  intros C. destruct (civilFromDays_inverse _ _ _ _ C) as (I & Hm & _).
  unfold makeDay. cbv zeta.
  rewrite (Z.div_small (m - 1) 12), (Z.mod_small (m - 1) 12) by lia.
  replace (y + 0) with y by lia. replace (m - 1 + 1) with m by lia.
  rewrite (daysFromCivil_first y m d) in I. lia.
Qed.

(** The date [getYesterdayUtcDateString] formats. *)
Lemma yesterday_date (now : Z) :
  0 <= now <= 8640000000000000 ->
  setUTCDate (setUTCHoursZero (Some now))
    (option_map (fun x => x - 1) (getUTCDate (setUTCHoursZero (Some now)))) =
  Some ((day now - 1) * msPerDay).
Proof.
  intros H. unfold setUTCHoursZero, makeDate.
  assert (D0 : 0 <= day now * msPerDay <= now).
  { unfold day, msPerDay in *. Z.div_mod_to_equations. lia. }
  rewrite Z.add_0_r, (timeClip_in_range (day now * msPerDay)) by lia.
  destruct (civilFromDays (day now)) as [[y m] d] eqn:C.
  unfold getUTCDate, option_map, dateFromTime. rewrite day_of_midnight, C.
  unfold setUTCDate, yearFromTime, monthFromTime, timeWithinDay.
  rewrite day_of_midnight, C, (makeDay_of_civil _ _ _ _ (d - 1) C).
  replace ((day now * msPerDay) mod msPerDay) with 0
    by (unfold msPerDay; now rewrite Z.mod_mul).
  replace (day now + (d - 1 - d)) with (day now - 1) by lia.
  unfold makeDate. rewrite Z.add_0_r.
  now rewrite timeClip_in_range by (unfold msPerDay in *; lia).
Qed.

(** X2. After the epoch, [getYesterdayUtcDateString] is the UTC date of
    the instant 24 hours before the clock, also on the first day of a
    month or a year; the time of day of the clock does not matter. *)
Theorem getYesterdayUtcDateString_is_day_before (now : Z) :
  0 <= now <= 8640000000000000 ->
  getYesterdayUtcDateString now = formatDateForGibs (Some (now - msPerDay)) /\
  (forall later, 0 <= later <= 8640000000000000 -> day later = day now ->
     getYesterdayUtcDateString later = getYesterdayUtcDateString now).
Proof.
  intros H.
  assert (Y : forall n, 0 <= n <= 8640000000000000 ->
                getYesterdayUtcDateString n =
                formatDateForGibs (Some ((day n - 1) * msPerDay))).
  { intros n Hn. unfold getYesterdayUtcDateString. now rewrite yesterday_date. }
  split.
  - rewrite (Y now H). apply formatDateForGibs_day. rewrite day_of_midnight.
    unfold day, msPerDay.
    replace (now - 86400000) with (now + (-1) * 86400000) by lia.
    rewrite Z.div_add by lia. lia.
  - intros later Hl E. now rewrite (Y later Hl), (Y now H), E.
Qed.

Lemma getYesterdayUtcDateString_is_day_before_witness :
  0 <= 1704067200000 <= 8640000000000000 /\
  getYesterdayUtcDateString 1704067200000 = "2023-12-31" /\
  getYesterdayUtcDateString 1704067200000 =
  formatDateForGibs (Some (1704067200000 - msPerDay)).
Proof.
  assert (H : 0 <= 1704067200000 <= 8640000000000000) by lia.
  split; [exact H|]. split; [vm_compute; reflexivity|].
  exact (proj1 (getYesterdayUtcDateString_is_day_before 1704067200000 H)).
Defined.

End DateStringFacts.

(** ** The date range and the date inputs *)

Section RangeFacts.

Variable localOffset : Z -> Z.
Variable parseDate : string -> Date.

Lemma format_dayText (t : Z) :
  format localOffset (Some t) yyyy_MM_dd = Normal (dayText (localDay localOffset t)).
Proof.
  destruct (localDay localOffset t) as [[y m] d] eqn:L.
  now rewrite (format_day _ _ _ _ _ L).
Qed.

Lemma getDefaultDateRange_fixed_offset
    (localOffsetOfLocal : Z -> Z) (off now1 now2 days : Z) :
  (forall t, localOffset t = off) ->
  (forall lt, localOffsetOfLocal lt = off) ->
  day (now1 + off) = day (now2 + off) ->
  Z.abs (now2 - days * msPerDay) <= 8640000000000000 ->
  getDefaultDateRange localOffset localOffsetOfLocal now1 now2 days =
  Range.make (Some (now2 - days * msPerDay)) (Some now1).
Proof.
  intros O1 O2 Same Clip.
  unfold getDefaultDateRange, getDate, setDate, option_map, localTime, utcOfLocal,
    dateFromTime, yearFromTime, monthFromTime, timeWithinDay.
  rewrite !O1, O2, Same.
  destruct (civilFromDays (day (now2 + off))) as [[y m] d] eqn:C.
  rewrite (makeDay_of_civil _ _ _ _ (d - days) C).
  unfold makeDate.
  replace ((day (now2 + off) + (d - days - d)) * msPerDay + (now2 + off) mod msPerDay - off)
    with (now2 - days * msPerDay).
  - now rewrite timeClip_in_range.
  - unfold day, msPerDay. Z.div_mod_to_equations. lia.
Qed.

Lemma localDay_days_back (off t days : Z) :
  (forall u, localOffset u = off) ->
  localDay localOffset (t - days * msPerDay) = civilFromDays (day (t + off) - days).
Proof.
  intros O. unfold localDay. rewrite O. f_equal. unfold day, msPerDay.
  replace (t - days * 86400000 + off) with (t + off + (- days) * 86400000) by lia.
  rewrite Z.div_add by lia. lia.
Qed.

(** X3. In a time zone with a fixed offset, when both clock reads fall
    on the same local day, the default range ends at the clock and starts
    exactly [days] days earlier, to the millisecond; the local day of the
    start is the local day of the clock moved back by [days] days of the
    calendar, also across the start of a month or a year. *)
Theorem getDefaultDateRange_spans_days
    (localOffsetOfLocal : Z -> Z) (off now1 now2 days : Z) :
  (forall t, localOffset t = off) ->
  (forall lt, localOffsetOfLocal lt = off) ->
  day (now1 + off) = day (now2 + off) ->
  Z.abs (now2 - days * msPerDay) <= 8640000000000000 ->
  let r := getDefaultDateRange localOffset localOffsetOfLocal now1 now2 days in
  r = Range.make (Some (now2 - days * msPerDay)) (Some now1) /\
  option_map (localDay localOffset) (Range.start r) =
    Some (civilFromDays (day (now2 + off) - days)) /\
  option_map (localDay localOffset) (Range.end_ r) =
    Some (civilFromDays (day (now2 + off))).
Proof.
  intros O1 O2 Same Clip r. unfold r.
  rewrite (getDefaultDateRange_fixed_offset _ off) by assumption.
  split; [reflexivity|]. cbn [Range.start Range.end_ option_map]. split.
  - now rewrite (localDay_days_back off).
  - unfold localDay. now rewrite O1, <- Same.
Qed.

(** X4. The start and end inputs hand the chosen day to [new Date], and
    show the local day of the result: when the chosen day is read as UTC
    midnight of day [D], the input shows day [D] east of Greenwich and the
    day before [D] west of it. *)
Theorem date_input_shows_local_day (value : string) (D : Z) (f : Filters.t) :
  parseDate value = Some (D * msPerDay) ->
  - msPerDay <= localOffset (D * msPerDay) < msPerDay ->
  let shown := dayText (civilFromDays
                 (if localOffset (D * msPerDay) <? 0 then D - 1 else D)) in
  startInputValue localOffset (onStartChange parseDate value f) = Normal shown /\
  endInputValue localOffset (onEndChange parseDate value f) = Normal shown.
Proof.
  intros P R shown.
  assert (L : localDay localOffset (D * msPerDay) =
              civilFromDays (if localOffset (D * msPerDay) <? 0 then D - 1 else D)).
  { unfold localDay. f_equal.
    destruct (_ <? 0) eqn:N; [apply Z.ltb_lt in N | apply Z.ltb_ge in N];
      unfold msPerDay in *; Z.div_mod_to_equations; lia. }
  unfold startInputValue, endInputValue, onStartChange, onEndChange. simpl.
  rewrite P, format_dayText, L. split; reflexivity.
Qed.

(** X5. A value of the start or end input that [new Date] cannot read
    (the cleared input) makes the query throw: no URL is built. *)
Theorem unreadable_input_date_breaks_query (value : string) (f : Filters.t) :
  parseDate value = None ->
  queryUrlOf localOffset (onStartChange parseDate value f) = Throw "Invalid time value" /\
  queryUrlOf localOffset (onEndChange parseDate value f) = Throw "Invalid time value" /\
  startInputValue localOffset (onStartChange parseDate value f) = Throw "Invalid time value" /\
  endInputValue localOffset (onEndChange parseDate value f) = Throw "Invalid time value".
Proof.
  intros P.
  unfold queryUrlOf, startInputValue, endInputValue, onStartChange, onEndChange,
    queryUrl, queryParams. simpl. rewrite P. simpl.
  repeat split.
  destruct (Range.start (Filters.range f)); reflexivity.
Qed.

End RangeFacts.

Lemma getDefaultDateRange_spans_days_witness :
  (forall t, brasilia t = -10800000) /\
  day (1704078000000 + -10800000) = day (1704078000005 + -10800000) /\
  Z.abs (1704078000005 - 45 * msPerDay) <= 8640000000000000 /\
  getDefaultDateRange brasilia brasilia 1704078000000 1704078000005 45 =
  Range.make (Some (1704078000005 - 45 * msPerDay)) (Some 1704078000000).
Proof.
  assert (O : forall t, brasilia t = -10800000) by reflexivity.
  assert (S : day (1704078000000 + -10800000) = day (1704078000005 + -10800000))
    by reflexivity.
  assert (C : Z.abs (1704078000005 - 45 * msPerDay) <= 8640000000000000)
    by (vm_compute; discriminate).
  split; [exact O|]. split; [exact S|]. split; [exact C|].
  exact (proj1 (getDefaultDateRange_spans_days brasilia brasilia (-10800000)
           1704078000000 1704078000005 45 O O S C)).
Defined.

Lemma date_input_shows_local_day_witness :
  let f := Filters.make (Range.make (Some 0) (Some 0)) "" in
  parseDateOnly "2024-01-15" = Some (19737 * msPerDay) /\
  - msPerDay <= brasilia (19737 * msPerDay) < msPerDay /\
  startInputValue brasilia (onStartChange parseDateOnly "2024-01-15" f) =
    Normal "2024-01-14" /\
  endInputValue brasilia (onEndChange parseDateOnly "2024-01-15" f) =
    Normal "2024-01-14".
Proof.
  intros f.
  assert (P : parseDateOnly "2024-01-15" = Some (19737 * msPerDay))
    by (vm_compute; reflexivity).
  assert (R : - msPerDay <= brasilia (19737 * msPerDay) < msPerDay)
    by (vm_compute; split; [discriminate | reflexivity]).
  split; [exact P|]. split; [exact R|].
  exact (date_input_shows_local_day brasilia parseDateOnly "2024-01-15" 19737 f P R).
Defined.

Lemma unreadable_input_date_breaks_query_witness :
  let f := Filters.make (Range.make (Some 1704067200000) (Some 1706659200000)) "8" in
  parseDateOnly "" = None /\
  (exists url, queryUrlOf utc f = Normal url) /\
  queryUrlOf utc (onStartChange parseDateOnly "" f) = Throw "Invalid time value" /\
  queryUrlOf utc (onEndChange parseDateOnly "" f) = Throw "Invalid time value".
Proof.
  intros f.
  assert (P : parseDateOnly "" = None) by reflexivity.
  split; [exact P|]. split; [eexists; vm_compute; reflexivity|].
  destruct (unreadable_input_date_breaks_query utc parseDateOnly "" f P)
    as (A & B & _).
  split; [exact A | exact B].
Defined.

(** ** The loading effect, in every case *)

Section LoadFacts.

Variable localOffset : Z -> Z.
Variable parseDate : string -> Date.
Variable LngLatBounds : Type.
Variable emptyBounds : LngLatBounds.
Variable extend : LngLatBounds -> Coordinates -> Completion LngLatBounds.

Local Abbreviation normalise := (flatMap (eventToFeatures localOffset parseDate)).
Local Abbreviation loadWith := (loadEvents localOffset parseDate emptyBounds extend).
Local Abbreviation settledWith := (settled localOffset parseDate emptyBounds extend).

(** The state after the loading effect, by the step that fails. *)
Lemma loadEvents_result (outcome : FetchOutcome EventsResponse)
    (st : AppState LngLatBounds) (map : MapWidget LngLatBounds) :
  mapRef st = Some map ->
  let failed m :=
    {| mapRef := Some map; loading := false; error := shownError m;
       eventCount := eventCount st |} in
  let shown features calls err :=
    {| mapRef := Some {| eonetEvents := features; fitBoundsCalls := calls |};
       loading := false; error := err; eventCount := length features |} in
  loadWith outcome st =
  match fetchJson outcome with
  | Throw m => failed m
  | Normal response =>
      match normalise (events response) with
      | Throw m => failed m
      | Normal [] => shown [] (fitBoundsCalls map) None
      | Normal features =>
          match extendAll extend emptyBounds features with
          | Throw m => shown features (fitBoundsCalls map) (shownError m)
          | Normal b =>
              shown features
                (fitBoundsCalls map ++
                 [ {| bounds := b; padding := 40; duration := 800 |} ]) None
          end
      end
  end.
Proof.
  intros M failed shown.
  unfold loadEvents, settle, finally, catch, bind, lift, onEvents, bind, lift,
    onMap, onError, setEventCount, setError, setLoading, ret, shownError.
  rewrite M. simpl.
  destruct (fetchJson outcome) as [response|m]; simpl; [|reflexivity].
  destruct (flatMap _ (events response)) as [[|f fs]|m]; simpl; try reflexivity.
  destruct (bindC (extend emptyBounds (Feature.coordinates f)) _) as [b|m];
    reflexivity.
Qed.

(** X6. The count shown stays the number of features in the map's
    source through every load, whichever step fails. *)
Theorem loadEvents_keeps_count (outcome : FetchOutcome EventsResponse)
    (st : AppState LngLatBounds) :
  CountShown st -> CountShown (loadWith outcome st).
Proof.
  unfold CountShown. destruct (mapRef st) as [map|] eqn:M.
  - intros C. rewrite (loadEvents_result outcome st map M).
    destruct (fetchJson outcome) as [response|m]; [|exact C].
    destruct (flatMap _ (events response)) as [[|f fs]|m]; [reflexivity| |exact C].
    destruct (extendAll _ _ _); reflexivity.
  - intros _. unfold loadEvents. rewrite M. cbn. now rewrite M.
Qed.

(** The state after the callbacks of a request that settles in the state
    [st], by the step that fails. *)
Lemma settled_result (outcome : FetchOutcome EventsResponse)
    (st : AppState LngLatBounds) (map : MapWidget LngLatBounds) :
  mapRef st = Some map ->
  let failed m :=
    {| mapRef := Some map; loading := false; error := shownError m;
       eventCount := eventCount st |} in
  let shown features calls err :=
    {| mapRef := Some {| eonetEvents := features; fitBoundsCalls := calls |};
       loading := false; error := err; eventCount := length features |} in
  settledWith outcome st =
  match fetchJson outcome with
  | Throw m => failed m
  | Normal response =>
      match normalise (events response) with
      | Throw m => failed m
      | Normal [] => shown [] (fitBoundsCalls map) (error st)
      | Normal features =>
          match extendAll extend emptyBounds features with
          | Throw m => shown features (fitBoundsCalls map) (shownError m)
          | Normal b =>
              shown features
                (fitBoundsCalls map ++
                 [ {| bounds := b; padding := 40; duration := 800 |} ]) (error st)
          end
      end
  end.
Proof.
  intros M failed shown.
  unfold settled, settle, finally, catch, bind, lift, onEvents, bind, lift,
    onMap, onError, setEventCount, setError, setLoading, ret, shownError.
  destruct (fetchJson outcome) as [response|m]; simpl; [|now rewrite M].
  destruct (flatMap _ (events response)) as [[|f fs]|m]; simpl; rewrite M; simpl;
    try reflexivity.
  destruct (bindC (extend emptyBounds (Feature.coordinates f)) _) as [b|m];
    reflexivity.
Qed.

Lemma beginLoad_result (st : AppState LngLatBounds) (map : MapWidget LngLatBounds) :
  mapRef st = Some map ->
  beginLoad st =
  {| mapRef := Some map; loading := true; error := None;
     eventCount := eventCount st |}.
Proof.
  intros M. unfold beginLoad, bind, setLoading, setError. rewrite M. reflexivity.
Qed.

(** X7. A request of the loading effect settles in whatever state the
    application is in by then. With a map, its callbacks leave the
    loading flag off; they put the message of the failure in [error] when
    the request, the normaliser or the bounds failed, and leave [error]
    as it is otherwise: a settling never clears an error, the start of a
    run does. A run that nothing interrupts is its start followed by its
    settling. When the request of the run before is aborted and settles
    after this run has started, its message is in [error] after this run
    has succeeded. *)
Theorem settling_sets_error_only_on_failure (outcome : FetchOutcome EventsResponse)
    (st : AppState LngLatBounds) (map : MapWidget LngLatBounds) :
  mapRef st = Some map ->
  (loading (settledWith outcome st) = false /\
   error (settledWith outcome st) =
   match fetchJson outcome with
   | Throw m => shownError m
   | Normal response =>
       match normalise (events response) with
       | Throw m => shownError m
       | Normal [] => error st
       | Normal features =>
           match extendAll extend emptyBounds features with
           | Throw m => shownError m
           | Normal _ => error st
           end
       end
   end) /\
  (loading (beginLoad st) = true /\ error (beginLoad st) = None /\
   loadWith outcome st = settledWith outcome (beginLoad st)) /\
  (forall abortMessage response features,
     abortMessage <> "" ->
     fetchJson outcome = Normal response ->
     normalise (events response) = Normal features ->
     (features = [] \/ exists b, extendAll extend emptyBounds features = Normal b) ->
     let st' := settledWith outcome (settledWith (Rejected abortMessage) (beginLoad st)) in
     loading st' = false /\ error st' = Some abortMessage /\
     option_map eonetEvents (mapRef st') = Some features).
Proof.
  intros M. split; [|split].
  - rewrite (settled_result outcome st map M).
    destruct (fetchJson outcome) as [response|m]; [|now split].
    destruct (flatMap _ (events response)) as [[|f fs]|m]; [now split| |now split].
    destruct (extendAll _ _ _); now split.
  - rewrite (beginLoad_result st map M). split; [reflexivity|]. split; [reflexivity|].
    unfold loadEvents, settled, bind, setLoading, setError. rewrite M. reflexivity.
  - intros abortMessage response features A F N X st'. unfold st'.
    rewrite (beginLoad_result st map M).
    match goal with
    | |- context [settled _ _ _ _ (Rejected abortMessage) ?s] =>
        rewrite (settled_result (Rejected abortMessage) s map eq_refl)
    end.
    cbn [fetchJson].
    match goal with
    | |- context [settled _ _ _ _ outcome ?s] =>
        rewrite (settled_result outcome s map eq_refl)
    end.
    rewrite F, N.
    assert (E : shownError abortMessage = Some abortMessage).
    { unfold shownError. apply String.eqb_neq in A. now rewrite A. }
    destruct features as [|f fs]; [cbn; now rewrite E|].
    destruct X as [X|[b X]]; [discriminate X|]. rewrite X. cbn. now rewrite E.
Qed.

(** X8. When the events normalise to a non-empty feature set and the
    bounds cannot be built from it, the new features are already in the
    map's source and counted, no fit is requested, and the error is
    shown. *)
Theorem loadEvents_bounds_failure_keeps_new_data
    (status : Z) (response : EventsResponse) (features : list Feature.t)
    (message : string) (st : AppState LngLatBounds) (map : MapWidget LngLatBounds) :
  ok status = true ->
  mapRef st = Some map ->
  normalise (events response) = Normal features ->
  extendAll extend emptyBounds features = Throw message ->
  let st' := loadWith (Response status (Parsed response)) st in
  mapRef st' = Some {| eonetEvents := features;
                       fitBoundsCalls := fitBoundsCalls map |} /\
  eventCount st' = length features /\
  error st' = shownError message.
Proof.
  intros O M N X st'. unfold st'.
  rewrite (loadEvents_result _ st map M). simpl. rewrite O. simpl. rewrite N.
  destruct features as [|f fs]; [discriminate X|]. rewrite X. auto.
Qed.

(** X9. A load adds at most one viewport request and keeps the earlier
    ones; it adds one only when it leaves no error, and then the bounds
    requested are those extended over exactly the features it put in the
    source, which are not empty. *)
Theorem loadEvents_fit_only_for_shown_features
    (outcome : FetchOutcome EventsResponse)
    (st : AppState LngLatBounds) (map : MapWidget LngLatBounds) :
  mapRef st = Some map ->
  exists map',
    mapRef (loadWith outcome st) = Some map' /\
    (fitBoundsCalls map' = fitBoundsCalls map \/
     exists b,
       fitBoundsCalls map' =
         fitBoundsCalls map ++ [ {| bounds := b; padding := 40; duration := 800 |} ] /\
       eonetEvents map' <> [] /\
       extendAll extend emptyBounds (eonetEvents map') = Normal b /\
       error (loadWith outcome st) = None).
Proof.
  intros M. rewrite (loadEvents_result outcome st map M).
  destruct (fetchJson outcome) as [response|m].
  - destruct (flatMap _ (events response)) as [[|f fs]|m].
    + eexists. split; [reflexivity|]. now left.
    + destruct (extendAll _ _ _) as [b|m] eqn:X.
      * eexists. split; [reflexivity|]. right. exists b. simpl.
        repeat split; [discriminate | exact X].
      * eexists. split; [reflexivity|]. now left.
    + exists map. split; [reflexivity|]. now left.
  - exists map. split; [reflexivity|]. now left.
Qed.

End LoadFacts.

Lemma loadEvents_keeps_count_witness :
  CountShown shownState /\
  CountShown (load (Response 200 (Parsed {| events := [sortedEvent; badDateEvent] |}))
                shownState) /\
  CountShown (load (Response 200 (Parsed {| events := [sortedEvent; unsortedEvent] |}))
                shownState).
Proof.
  assert (C : CountShown shownState) by reflexivity.
  split; [exact C|]. split.
  - exact (loadEvents_keeps_count utc parseDateOnly (option Box) None extendBox _ _ C).
  - exact (loadEvents_keeps_count utc parseDateOnly (option Box) None extendBox _ _ C).
Defined.

Lemma settling_sets_error_only_on_failure_witness :
  let outcome := Response 200 (Parsed {| events := [sortedEvent] |}) in
  let f := featureOf sortedEvent (point "2024-01-15" 11%float 21%float)
             "2024-01-15 00:00" in
  let aborted : FetchOutcome EventsResponse := Rejected "The user aborted a request." in
  let st' := settled utc parseDateOnly None extendBox outcome
               (settled utc parseDateOnly None extendBox aborted (beginLoad shownState)) in
  mapRef shownState = Some shownMap /\
  "The user aborted a request." <> "" /\
  flatMap toFeatures [sortedEvent] = Normal [f] /\
  loading st' = false /\
  error st' = Some "The user aborted a request." /\
  option_map eonetEvents (mapRef st') = Some [f].
Proof.
  intros outcome f aborted st'.
  assert (A : "The user aborted a request." <> "") by discriminate.
  assert (N : flatMap toFeatures [sortedEvent] = Normal [f]) by (vm_compute; reflexivity).
  split; [reflexivity|]. split; [exact A|]. split; [exact N|].
  refine (proj2 (proj2 (settling_sets_error_only_on_failure utc parseDateOnly (option Box) None
                          extendBox outcome shownState shownMap eq_refl))
            "The user aborted a request." {| events := [sortedEvent] |} [f]
            A eq_refl N _).
  right. eexists. vm_compute. reflexivity.
Defined.

(** An event whose selected Point entry has an empty coordinate array. *)
Lemma loadEvents_bounds_failure_keeps_new_data_witness :
  let ev := event "EONET_6" "Dust" "Dust and Haze"
              [ EonetGeometry.make None None "2024-01-10" Point (Position []) ] in
  let f := featureOf ev (EonetGeometry.make None None "2024-01-10" Point (Position []))
             "2024-01-10 00:00" in
  let st' := load (Response 200 (Parsed {| events := [ev] |})) shownState in
  ok 200 = true /\
  mapRef shownState = Some shownMap /\
  flatMap toFeatures [ev] = Normal [f] /\
  extendAll extendBox None [f] = Throw "Invalid LngLat object" /\
  mapRef st' = Some {| eonetEvents := [f]; fitBoundsCalls := [] |} /\
  eventCount st' = 1%nat /\
  error st' = Some "Invalid LngLat object".
Proof.
  intros ev f st'.
  assert (N : flatMap toFeatures [ev] = Normal [f]) by (vm_compute; reflexivity).
  assert (X : extendAll extendBox None [f] = Throw "Invalid LngLat object")
    by reflexivity.
  split; [reflexivity|]. split; [reflexivity|]. split; [exact N|]. split; [exact X|].
  exact (loadEvents_bounds_failure_keeps_new_data utc parseDateOnly (option Box) None
           extendBox 200 {| events := [ev] |} [f] "Invalid LngLat object"
           shownState shownMap eq_refl eq_refl N X).
Defined.

Lemma loadEvents_fit_only_for_shown_features_witness :
  mapRef shownState = Some shownMap /\
  exists map',
    mapRef (load (Response 200 (Parsed {| events := [sortedEvent] |})) shownState) =
      Some map' /\
    (fitBoundsCalls map' = fitBoundsCalls shownMap \/
     exists b,
       fitBoundsCalls map' =
         fitBoundsCalls shownMap ++
         [ {| bounds := b; padding := 40; duration := 800 |} ] /\
       eonetEvents map' <> [] /\
       extendAll extendBox None (eonetEvents map') = Normal b /\
       error (load (Response 200 (Parsed {| events := [sortedEvent] |})) shownState)
       = None).
Proof.
  split; [reflexivity|].
  exact (loadEvents_fit_only_for_shown_features utc parseDateOnly (option Box) None
           extendBox _ shownState shownMap eq_refl).
Defined.

(** ** The fetch helper *)

(** X10. [fetchJson] fails exactly on a request that got no response, a
    status outside 200-299, or a body that is not JSON, with the message
    of that failure; the status is looked at first, so a response with a
    bad status and a bad body reports the status. It returns the data
    exactly for a 2xx response with a JSON body. *)
Theorem fetchJson_outcomes {T : Type} (outcome : FetchOutcome T) :
  (forall message, fetchJson outcome = Throw message <-> FetchFailed outcome message) /\
  (forall data, fetchJson outcome = Normal data <->
     exists status, ok status = true /\ outcome = Response status (Parsed data)) /\
  (forall status message,
     outcome = Response status (Malformed message) -> ok status = false ->
     fetchJson outcome = Throw ("HTTP " +:+ showInt status)).
Proof.
  split; [|split].
  - intros message. split; [|apply fetchJson_failed].
    destruct outcome as [m|status body]; simpl.
    + intros [= <-]. constructor.
    + destruct (ok status) eqn:O; simpl.
      * destruct body as [m|data]; [|discriminate].
        intros [= <-]. now constructor.
      * intros [= <-]. now constructor.
  - intros data. split.
    + destruct outcome as [m|status body]; simpl; [discriminate|].
      destruct (ok status) eqn:O; simpl; [|discriminate].
      destruct body as [m|d]; [discriminate|]. intros [= <-]. now exists status.
    + intros (status & O & ->). simpl. now rewrite O.
  - intros status message -> O. simpl. now rewrite O.
Qed.

Lemma fetchJson_outcomes_witness :
  FetchFailed (Response 502 (@Malformed EventsResponse "Unexpected token <")) "HTTP 502" /\
  fetchJson (Response 502 (@Malformed EventsResponse "Unexpected token <")) =
    Throw "HTTP 502".
Proof.
  assert (F : FetchFailed (Response 502 (@Malformed EventsResponse "Unexpected token <"))
                "HTTP 502")
    by exact (failed_status 502 _ eq_refl).
  split; [exact F|].
  exact (proj2 (proj1 (fetchJson_outcomes _) "HTTP 502") F).
Defined.

(** ** The feature of an event *)

Section FeatureFacts.

Variable localOffset : Z -> Z.
Variable parseDate : string -> Date.

Local Abbreviation toFeature := (eventToFeatures localOffset parseDate).

(** X11. The category of a feature is never empty: it is the title of the
    event's first category, and "Unknown" (key "unknown", default colour)
    when the event has no category or the first title is empty; later
    categories never matter. *)
Theorem feature_category_is_first_or_unknown (ev : EonetEvent.t) (f : Feature.t) :
  toFeature ev = Normal [f] ->
  let p := Feature.properties f in
  Feature.category p <> "" /\
  Feature.categoryKey p = normalizeCategoryKey (Feature.category p) /\
  match EonetEvent.categories ev with
  | c :: _ =>
      EventCategory.title c <> "" -> Feature.category p = EventCategory.title c
  | [] => True
  end /\
  (match EonetEvent.categories ev with
   | c :: _ => EventCategory.title c = ""
   | [] => True
   end ->
   Feature.category p = "Unknown" /\ Feature.categoryKey p = "unknown" /\
   Feature.color p = OwnString "#7aa2ff").
Proof.
  intros E. apply eventToFeatures_Normal in E as [[_ C]|[_ (lp & latest & _ & C)]];
    [discriminate C|].
  injection C as ->. simpl. unfold primaryCategory.
  destruct (EonetEvent.categories ev) as [|c rest].
  - split; [discriminate|]. split; [reflexivity|]. split; [exact I|].
    intros _. split; [reflexivity|]. split; [reflexivity | vm_compute; reflexivity].
  - destruct (String.eqb (EventCategory.title c) "") eqn:T.
    + split; [discriminate|]. split; [reflexivity|]. split.
      * apply String.eqb_eq in T. congruence.
      * intros _. split; [reflexivity|]. split; [reflexivity | vm_compute; reflexivity].
    + apply String.eqb_neq in T. split; [exact T|]. split; [reflexivity|].
      split; [reflexivity|]. intros T'. contradiction.
Qed.

End FeatureFacts.

Lemma feature_category_is_first_or_unknown_witness :
  let ev := EonetEvent.make "EONET_7" "Unnamed" None [] [ point "2024-01-10" 1%float 2%float ] in
  let f := featureOf ev (point "2024-01-10" 1%float 2%float) "2024-01-10 00:00" in
  toFeatures ev = Normal [f] /\
  Feature.category (Feature.properties f) = "Unknown" /\
  Feature.categoryKey (Feature.properties f) = "unknown" /\
  Feature.color (Feature.properties f) = OwnString "#7aa2ff".
Proof.
  intros ev f.
  assert (E : toFeatures ev = Normal [f]) by (vm_compute; reflexivity).
  split; [exact E|].
  exact (proj2 (proj2 (proj2
           (feature_category_is_first_or_unknown utc parseDateOnly ev f E))) I).
Defined.

(** ** The colours on the map and in the legend *)

Section PaletteFacts.

Lemma circleColor_is_palette (key : string) :
  circleColor key =
  match CATEGORY_COLORS !! key with
  | Some c => c
  | None => "#7aa2ff"
  end.
Proof.
  unfold circleColor, CATEGORY_COLORS. cbn [list_to_map foldr uncurry fst snd].
  repeat match goal with
         | |- context [String.eqb key ?k] =>
             let E := fresh "E" in
             destruct (String.eqb key k) eqn:E;
             [ apply String.eqb_eq in E; subst key; vm_compute; reflexivity
             | apply String.eqb_neq in E;
               rewrite (lookup_insert_ne _ k key) by congruence ]
         end.
  now rewrite lookup_empty.
Qed.

Lemma circleColor_of_colorFor (key c : string) :
  colorFor key = OwnString c -> circleColor key = c.
Proof.
  rewrite circleColor_is_palette. unfold colorFor.
  destruct (CATEGORY_COLORS !! key) as [c'|] eqn:L.
  - destruct (String.eqb c' "") eqn:E; intros [= <-]; [|reflexivity].
    apply String.eqb_eq in E. subst c'. exfalso. revert L.
    unfold CATEGORY_COLORS. intros L%elem_of_list_to_map_2.
    repeat (apply elem_of_cons in L as [L|L]; [discriminate L|]).
    inversion L.
  - destruct (existsb _ _); [discriminate|]. now intros [= <-].
Qed.

Lemma circleColor_never_camelCase (title : string) :
  ~ In (circleColor (normalizeCategoryKey title)) camelCaseColors.
Proof.
  rewrite circleColor_is_palette.
  destruct (CATEGORY_COLORS !! normalizeCategoryKey title) as [c|] eqn:L.
  - apply CATEGORY_COLORS_entries in L as [L|[_ L]]; [|exact L].
    exfalso. exact (camelCase_not_normalized title L).
  - simpl. intros D. repeat destruct D as [D|D]; first [discriminate D | destruct D].
Qed.

(** X12. The circle layer and [CATEGORY_COLORS] hold the same palette:
    for every key the layer paints the colour stored under the key, and
    the default colour for any other key. So the circle of a feature has
    the colour of the feature's [color] property whenever that is a
    string, and no category title is painted in a colour stored under a
    camelCase key. *)
Theorem circleColor_agrees_with_feature_color :
  (forall key,
     circleColor key =
     match CATEGORY_COLORS !! key with Some c => c | None => "#7aa2ff" end) /\
  (forall key c, colorFor key = OwnString c -> circleColor key = c) /\
  (forall localOffset parseDate ev f c,
     eventToFeatures localOffset parseDate ev = Normal [f] ->
     Feature.color (Feature.properties f) = OwnString c ->
     circleColor (Feature.categoryKey (Feature.properties f)) = c) /\
  (forall title, ~ In (circleColor (normalizeCategoryKey title)) camelCaseColors).
Proof.
  split; [exact circleColor_is_palette|].
  split; [exact circleColor_of_colorFor|]. split.
  - intros localOffset parseDate ev f c E.
    apply eventToFeatures_Normal in E as [[_ C]|[_ (lp & latest & _ & C)]];
      [discriminate C|].
    injection C as ->. simpl. apply circleColor_of_colorFor.
  - exact circleColor_never_camelCase.
Qed.

Lemma circleColor_agrees_with_feature_color_witness :
  colorFor "wildfires" = OwnString "#ff7b7b" /\ circleColor "wildfires" = "#ff7b7b".
Proof.
  assert (C : colorFor "wildfires" = OwnString "#ff7b7b") by (vm_compute; reflexivity).
  split; [exact C|].
  exact (proj1 (proj2 circleColor_agrees_with_feature_color) _ _ C).
Defined.

(** X13. Every entry of the legend has a colour, and that colour is one
    some category title is painted in on the map, except for the entry
    "severeStorms": no category title is painted in its colour. *)
Theorem legend_colour_painted_unless_camelCase (l : Legend.t) :
  In l legends ->
  exists c,
    Legend.color l = Some c /\
    ((exists title, circleColor (normalizeCategoryKey title) = c) <->
     Legend.key l <> "severeStorms").
Proof.
  intros H. unfold legends in H. cbn [In] in H.
  destruct H as [<-|[<-|[<-|[<-|[<-|[]]]]]]; cbn [Legend.key Legend.color];
    eexists; (split; [vm_compute; reflexivity|]);
    (split;
     [ first [ intros _; discriminate
             | intros [title P]; exfalso;
               apply (circleColor_never_camelCase title);
               rewrite P; vm_compute; tauto ]
     | first [ intros N; exfalso; apply N; reflexivity
             | intros _;
               first [ exists "wildfires"; vm_compute; reflexivity
                     | exists "volcanoes"; vm_compute; reflexivity
                     | exists "earthquakes"; vm_compute; reflexivity
                     | exists "floods"; vm_compute; reflexivity ] ] ]).
Qed.

Lemma legend_colour_painted_unless_camelCase_witness :
  In (Legend.make "severeStorms" "Tempestades" (CATEGORY_COLORS !! "severeStorms"))
     legends /\
  exists c,
    CATEGORY_COLORS !! "severeStorms" = Some c /\
    ((exists title, circleColor (normalizeCategoryKey title) = c) <->
     "severeStorms" <> "severeStorms").
Proof.
  assert (H : In (Legend.make "severeStorms" "Tempestades"
                    (CATEGORY_COLORS !! "severeStorms")) legends)
    by (right; left; reflexivity).
  split; [exact H|].
  exact (legend_colour_painted_unless_camelCase _ H).
Defined.

End PaletteFacts.

(** ** Strings that need no escaping, and strings cut at a separator *)

Section TextFacts.

Lemma append_cons (c : ascii) (s t : string) :
  String c s +:+ t = String c (s +:+ t).
Proof. reflexivity. Qed.

Lemma allUnits_append (p : ascii -> bool) (s t : string) :
  allUnits p (s +:+ t) = allUnits p s && allUnits p t.
Proof.
  induction s as [|c s IH]; [reflexivity|].
  rewrite append_cons. cbn [allUnits]. rewrite IH. apply andb_assoc.
Qed.

Lemma encodeUnit_unreserved (c : ascii) :
  URLSearchParams.isUnreserved c = true ->
  URLSearchParams.encodeUnit c = String c "".
Proof.
  destruct c as [[] [] [] [] [] [] [] []]; vm_compute;
    intros H; first [reflexivity | discriminate H].
Qed.

Lemma encode_unreserved (s : string) :
  allUnits URLSearchParams.isUnreserved s = true -> URLSearchParams.encode s = s.
Proof.
  induction s as [|c s IH]; [reflexivity|].
  cbn [allUnits URLSearchParams.encode]. intros [C S]%andb_prop.
  now rewrite (encodeUnit_unreserved c C), IH.
Qed.

Lemma digits_unreserved (d : Decimal.uint) :
  allUnits URLSearchParams.isUnreserved (NilEmpty.string_of_uint d) = true.
Proof. induction d; simpl; auto. Qed.

Lemma uint_text_unreserved (d : Decimal.uint) :
  allUnits URLSearchParams.isUnreserved (NilZero.string_of_uint d) = true.
Proof. destruct d; try reflexivity; apply digits_unreserved. Qed.

Lemma showInt_unreserved (z : Z) :
  allUnits URLSearchParams.isUnreserved (showInt z) = true.
Proof.
  unfold showInt, NilZero.string_of_int.
  destruct (Z.to_int z) as [d|d]; [apply uint_text_unreserved|].
  cbn [allUnits]. now rewrite uint_text_unreserved.
Qed.

Lemma showInt_not_empty (z : Z) : String.eqb (showInt z) "" = false.
Proof.
  unfold showInt, NilZero.string_of_int, NilZero.string_of_uint.
  destruct (Z.to_int z) as [d|d]; [|reflexivity].
  destruct d; reflexivity.
Qed.

Lemma zeros_unreserved (k : nat) :
  allUnits URLSearchParams.isUnreserved (String.concat "" (repeat "0" k)) = true.
Proof.
  induction k as [|k IH]; [reflexivity|].
  cbn [repeat String.concat]. destruct (repeat "0" k) eqn:R; [reflexivity|].
  rewrite allUnits_append, allUnits_append, IH. reflexivity.
Qed.

Lemma addLeadingZeros_unreserved (n : Z) (width : nat) :
  allUnits URLSearchParams.isUnreserved (addLeadingZeros n width) = true.
Proof.
  unfold addLeadingZeros.
  now rewrite allUnits_append, zeros_unreserved, uint_text_unreserved.
Qed.

Lemma dayText_unreserved (ymd : Z * Z * Z) :
  allUnits URLSearchParams.isUnreserved (dayText ymd) = true.
Proof.
  destruct ymd as [[y m] d]. unfold dayText.
  rewrite !allUnits_append, !addLeadingZeros_unreserved. reflexivity.
Qed.

Lemma length_append (s t : string) :
  String.length (s +:+ t) = (String.length s + String.length t)%nat.
Proof.
  induction s as [|c s IH]; [reflexivity|].
  rewrite append_cons. cbn [String.length]. now rewrite IH.
Qed.

Lemma append_inj_l (p s t : string) : p +:+ s = p +:+ t -> s = t.
Proof.
  induction p as [|c p IH]; [trivial|].
  rewrite !append_cons. intros [= H]. auto.
Qed.

Lemma append_inj_r (a b s : string) : a +:+ s = b +:+ s -> a = b.
Proof.
  revert b. induction a as [|c a IH]; intros [|c' b] H.
  - reflexivity.
  - apply (f_equal String.length) in H.
    rewrite append_cons in H. cbn [String.length] in H.
    rewrite !length_append in H. cbn [String.length] in H. lia.
  - apply (f_equal String.length) in H.
    rewrite append_cons in H. cbn [String.length] in H.
    rewrite !length_append in H. cbn [String.length] in H. lia.
  - rewrite !append_cons in H. injection H as -> H. f_equal. now apply IH.
Qed.

(** Two texts without the separator, each followed by the separator:
    equal wholes have equal parts. *)
Lemma cut_at_separator (sep : ascii) (l1 l2 r1 r2 : string) :
  free sep l1 = true -> free sep l2 = true ->
  l1 +:+ String sep r1 = l2 +:+ String sep r2 ->
  l1 = l2 /\ r1 = r2.
Proof.
  unfold free. revert l2.
  induction l1 as [|c l1 IH]; intros [|c' l2] F1 F2 H.
  - injection H as ->. auto.
  - rewrite append_cons in H. cbn [String.append] in H. injection H as <- _.
    cbn [allUnits] in F2. rewrite Ascii.eqb_refl in F2. discriminate F2.
  - rewrite append_cons in H. cbn [String.append] in H. injection H as -> _.
    cbn [allUnits] in F1. rewrite Ascii.eqb_refl in F1. discriminate F1.
  - rewrite !append_cons in H. injection H as -> H.
    cbn [allUnits] in F1, F2.
    apply andb_prop in F1 as [_ F1]. apply andb_prop in F2 as [_ F2].
    destruct (IH l2 F1 F2 H) as [-> ->]. auto.
Qed.

End TextFacts.

(** ** The category selector and the query *)

Section SelectorFacts.

Variable localOffset : Z -> Z.

Lemma queryUrl_text (s e : Z) (cat : string) :
  queryUrl localOffset (Some s) (Some e) cat =
  Normal ("https://eonet.gsfc.nasa.gov/api/v3/events?status=open&start=" +:+
          dayText (localDay localOffset s) +:+ "&end=" +:+
          dayText (localDay localOffset e) +:+
          (if String.eqb cat "" then ""
           else "&category=" +:+ URLSearchParams.encode cat) +:+
          "&limit=250").
Proof.
  unfold queryUrl.
  rewrite (queryParams_of_dates localOffset (Some s) (Some e) cat _ _
             (format_dayText localOffset s) (format_dayText localOffset e)).
  unfold bindC. f_equal.
  destruct (String.eqb cat "");
    cbn [app map fst snd URLSearchParams.toString String.concat];
    rewrite !(encode_unreserved (dayText _)) by apply dayText_unreserved;
    rewrite !append_assoc; reflexivity.
Qed.

(** X14. For a category [c] of the list loaded, the option whose value is
    [c.id.toString()] is in the selector, and choosing it (the value not
    being empty) puts that value, form-encoded, in [&category=] between
    the end day and [&limit=250]; the days are written as they print.
    When the id is a safe integer the value is its decimal digits and
    the encoding leaves it as it is. *)
Theorem selected_category_in_query
    (largeText : Z -> string)
    (outcome : FetchOutcome CategoriesResponse) (data : CategoriesResponse)
    (current : list EonetCategory.t) (c : EonetCategory.t)
    (f : Filters.t) (s e : Z) :
  fetchJson outcome = Normal data ->
  In c (categories data) ->
  Filters.range f = Range.make (Some s) (Some e) ->
  let value := idToString largeText (EonetCategory.id c) in
  In value (categoryOptions largeText (loadCategories outcome current)) /\
  (value <> "" ->
   queryUrlOf localOffset (onCategoryChange value f) =
   Normal ("https://eonet.gsfc.nasa.gov/api/v3/events?status=open&start=" +:+
           dayText (localDay localOffset s) +:+ "&end=" +:+
           dayText (localDay localOffset e) +:+
           "&category=" +:+ URLSearchParams.encode value +:+ "&limit=250")) /\
  (Z.abs (EonetCategory.id c) <= MAX_SAFE_INTEGER ->
   value = showInt (EonetCategory.id c) /\ value <> "" /\
   URLSearchParams.encode value = value).
Proof.
  intros F I R value. split; [|split].
  - unfold loadCategories, categoryOptions. rewrite F. right.
    apply in_map_iff. now exists c.
  - intros V. unfold queryUrlOf, onCategoryChange.
    cbn [Filters.range Filters.selectedCategory].
    rewrite R. cbn [Range.start Range.end_]. rewrite queryUrl_text.
    apply String.eqb_neq in V. rewrite V. reflexivity.
  - intros S. unfold value, idToString.
    apply Z.leb_le in S. rewrite S. split; [reflexivity|]. split.
    + apply String.eqb_neq, showInt_not_empty.
    + apply encode_unreserved, showInt_unreserved.
Qed.

(** X15. At mount, in a time zone with a fixed offset, the query asks for
    the open events from the local day 45 days before the clock to the
    local day of the clock, capped at 250, with no category. *)
Theorem initial_query_covers_45_days
    (localOffsetOfLocal : Z -> Z) (off now1 now2 : Z) :
  (forall t, localOffset t = off) ->
  (forall lt, localOffsetOfLocal lt = off) ->
  day (now1 + off) = day (now2 + off) ->
  Z.abs (now2 - 45 * msPerDay) <= 8640000000000000 ->
  queryUrlOf localOffset (initialFilters localOffset localOffsetOfLocal now1 now2) =
  Normal ("https://eonet.gsfc.nasa.gov/api/v3/events?status=open&start=" +:+
          dayText (civilFromDays (day (now2 + off) - 45)) +:+ "&end=" +:+
          dayText (civilFromDays (day (now2 + off))) +:+ "&limit=250").
Proof.
  intros O1 O2 Same Clip.
  unfold queryUrlOf, initialFilters. cbn [Filters.range Filters.selectedCategory].
  rewrite (getDefaultDateRange_fixed_offset localOffset _ off) by assumption.
  cbn [Range.start Range.end_]. rewrite queryUrl_text.
  rewrite (localDay_days_back localOffset off) by assumption.
  unfold localDay. rewrite O1. fold (day (now1 + off)). rewrite Same. reflexivity.
Qed.

(** X16. When the request for the categories fails, the error is dropped
    and the list stays as it was; when it succeeds the list is replaced.
    The selector offers the empty value first and then
    [c.id.toString()] for every category, in the order of the list; for
    a safe integer id that value is the decimal digits of the id, which
    the query carries unescaped. *)
Theorem categories_load_and_options
    (largeText : Z -> string)
    (outcome : FetchOutcome CategoriesResponse) (current : list EonetCategory.t) :
  (forall message, FetchFailed outcome message ->
     loadCategories outcome current = current) /\
  (forall data, fetchJson outcome = Normal data ->
     loadCategories outcome current = categories data) /\
  (forall cats,
     categoryOptions largeText cats =
       "" :: map (fun c => idToString largeText (EonetCategory.id c)) cats /\
     length (categoryOptions largeText cats) = S (length cats) /\
     forall value, In value (categoryOptions largeText cats) -> value <> "" ->
       exists c, In c cats /\ value = idToString largeText (EonetCategory.id c) /\
                 (Z.abs (EonetCategory.id c) <= MAX_SAFE_INTEGER ->
                  value = showInt (EonetCategory.id c) /\
                  URLSearchParams.encode value = value)).
Proof.
  split; [|split].
  - intros message F. unfold loadCategories. now rewrite (fetchJson_failed _ _ F).
  - intros data F. unfold loadCategories. now rewrite F.
  - intros cats. split; [reflexivity|]. split.
    + unfold categoryOptions. cbn [length]. now rewrite length_map.
    + intros value [<-|I] N; [contradiction|].
      apply in_map_iff in I as (c & <- & I). exists c.
      split; [exact I|]. split; [reflexivity|].
      intros S. unfold idToString. apply Z.leb_le in S. rewrite S.
      split; [reflexivity|]. apply encode_unreserved, showInt_unreserved.
Qed.

End SelectorFacts.

Lemma selected_category_in_query_witness :
  let fires := EonetCategory.make 8 "Wildfires" None None in
  let far := EonetCategory.make (10 ^ 21) "Far" None None in
  let data := {| categories := [EonetCategory.make 6 "Drought" None None; fires; far] |} in
  let f := Filters.make (Range.make (Some 1704078000000) (Some 1706713200000)) "" in
  let largeText := fun _ : Z => "1e+21" in
  fetchJson (Response 200 (Parsed data)) = Normal data /\
  In fires (categories data) /\ In far (categories data) /\
  In "8" (categoryOptions largeText (loadCategories (Response 200 (Parsed data)) [])) /\
  queryUrlOf brasilia (onCategoryChange "8" f) =
  Normal "https://eonet.gsfc.nasa.gov/api/v3/events?status=open&start=2024-01-01&end=2024-01-31&category=8&limit=250" /\
  In "1e+21" (categoryOptions largeText (loadCategories (Response 200 (Parsed data)) [])) /\
  queryUrlOf brasilia (onCategoryChange "1e+21" f) =
  Normal "https://eonet.gsfc.nasa.gov/api/v3/events?status=open&start=2024-01-01&end=2024-01-31&category=1e%2B21&limit=250".
Proof.
  intros fires far data f largeText.
  assert (F : fetchJson (Response 200 (Parsed data)) = Normal data) by reflexivity.
  assert (I : In fires (categories data)) by (right; left; reflexivity).
  assert (J : In far (categories data)) by (right; right; left; reflexivity).
  assert (V8 : "8" <> "") by discriminate.
  assert (V21 : "1e+21" <> "") by discriminate.
  split; [exact F|]. split; [exact I|]. split; [exact J|].
  destruct (selected_category_in_query brasilia largeText (Response 200 (Parsed data))
              data [] fires f 1704078000000 1706713200000 F I eq_refl)
    as (O8 & U8 & _).
  destruct (selected_category_in_query brasilia largeText (Response 200 (Parsed data))
              data [] far f 1704078000000 1706713200000 F J eq_refl)
    as (O21 & U21 & _).
  split; [exact O8|]. split; [exact (U8 V8)|]. split; [exact O21|]. exact (U21 V21).
Defined.

Lemma initial_query_covers_45_days_witness :
  (forall t, brasilia t = -10800000) /\
  day (1704078000000 + -10800000) = day (1704078000005 + -10800000) /\
  Z.abs (1704078000005 - 45 * msPerDay) <= 8640000000000000 /\
  queryUrlOf brasilia (initialFilters brasilia brasilia 1704078000000 1704078000005) =
  Normal "https://eonet.gsfc.nasa.gov/api/v3/events?status=open&start=2023-11-17&end=2024-01-01&limit=250".
Proof.
  assert (O : forall t, brasilia t = -10800000) by reflexivity.
  assert (S : day (1704078000000 + -10800000) = day (1704078000005 + -10800000))
    by reflexivity.
  assert (C : Z.abs (1704078000005 - 45 * msPerDay) <= 8640000000000000)
    by (vm_compute; discriminate).
  split; [exact O|]. split; [exact S|]. split; [exact C|].
  exact (initial_query_covers_45_days brasilia brasilia (-10800000)
           1704078000000 1704078000005 O O S C).
Defined.

Lemma categories_load_and_options_witness :
  let kept := [EonetCategory.make 8 "Wildfires" None None] in
  FetchFailed (@Rejected CategoriesResponse "Failed to fetch") "Failed to fetch" /\
  loadCategories (Rejected "Failed to fetch") kept = kept.
Proof.
  intros kept.
  assert (F : FetchFailed (@Rejected CategoriesResponse "Failed to fetch")
                "Failed to fetch") by constructor.
  split; [exact F|].
  exact (proj1 (categories_load_and_options (fun _ => "1e+21")
                  (Rejected "Failed to fetch") kept) _ F).
Defined.

(** ** The tile layer *)

Section TileFacts.

(** X17. Tile URLs do not collide: for layers without [&], two URLs are
    equal only for the same layer and the same date. *)
Theorem buildTileUrl_injective (layer1 layer2 date1 date2 : string) :
  free "&" layer1 = true -> free "&" layer2 = true ->
  buildTileUrl layer1 date1 = buildTileUrl layer2 date2 ->
  layer1 = layer2 /\ date1 = date2.
Proof.
  intros F1 F2 H. unfold buildTileUrl in H.
  apply append_inj_l, append_inj_l in H.
  change ("&style=default&tilematrixset=GoogleMapsCompatible_Level&format=image%2Fjpeg&time="
          +:+ ?r)
    with (String "&" ("style=default&tilematrixset=GoogleMapsCompatible_Level&format=image%2Fjpeg&time="
          +:+ r)) in H.
  apply cut_at_separator in H as [-> H]; [|assumption|assumption].
  split; [reflexivity|].
  apply append_inj_l in H. now apply append_inj_r in H.
Qed.

(** X18. The key of the tile layer changes whenever the layer or the
    date changes: for two states whose layers are among [GIBS_LAYERS],
    equal keys mean equal states. *)
Theorem tileLayerKey_injective (st1 st2 : NasaGibsMap.State) :
  In (NasaGibsMap.selectedLayer st1) (map fst GIBS_LAYERS) ->
  In (NasaGibsMap.selectedLayer st2) (map fst GIBS_LAYERS) ->
  NasaGibsMap.tileLayerKey st1 = NasaGibsMap.tileLayerKey st2 ->
  st1 = st2 /\ NasaGibsMap.tileUrl st1 = NasaGibsMap.tileUrl st2.
Proof.
  assert (G : forall l, In l (map fst GIBS_LAYERS) -> free "-" l = true).
  { intros l H. cbn [map fst GIBS_LAYERS In] in H.
    repeat destruct H as [<-|H]; try reflexivity. destruct H. }
  intros I1 I2 K. destruct st1 as [l1 d1], st2 as [l2 d2].
  unfold NasaGibsMap.tileLayerKey in K. cbn [NasaGibsMap.selectedLayer
    NasaGibsMap.selectedDate] in *.
  change ("-" +:+ ?d) with (String "-" d) in K.
  apply cut_at_separator in K as [-> ->]; auto.
Qed.

End TileFacts.

Lemma buildTileUrl_injective_witness :
  free "&" "MODIS_Terra_Aerosol" = true /\
  (buildTileUrl "MODIS_Terra_Aerosol" "2024-06-01" =
   buildTileUrl "MODIS_Terra_Aerosol" "2024-06-01" ->
   "MODIS_Terra_Aerosol" = "MODIS_Terra_Aerosol" /\ "2024-06-01" = "2024-06-01").
Proof.
  assert (F : free "&" "MODIS_Terra_Aerosol" = true) by reflexivity.
  split; [exact F|].
  exact (buildTileUrl_injective _ _ "2024-06-01" "2024-06-01" F F).
Defined.

Lemma tileLayerKey_injective_witness :
  let st := NasaGibsMap.initialState 1717243200123 in
  In (NasaGibsMap.selectedLayer st) (map fst GIBS_LAYERS) /\
  NasaGibsMap.tileLayerKey st =
    "VIIRS_SNPP_CorrectedReflectance_TrueColor-2024-05-31" /\
  (NasaGibsMap.tileLayerKey st = NasaGibsMap.tileLayerKey st ->
   st = st /\ NasaGibsMap.tileUrl st = NasaGibsMap.tileUrl st).
Proof.
  intros st.
  assert (I : In (NasaGibsMap.selectedLayer st) (map fst GIBS_LAYERS))
    by (do 3 right; left; reflexivity).
  split; [exact I|]. split; [vm_compute; reflexivity|].
  exact (tileLayerKey_injective st st I I).
Defined.

(** ** Keys that normalisation leaves alone *)

Section KeyFacts.

Lemma lowerCodeUnit_fixed (c : ascii) :
  lowerCodeUnit c = c <-> isUpperCase c = false.
Proof.
  destruct c as [[] [] [] [] [] [] [] []]; vm_compute; split; intros H;
    first [reflexivity | discriminate H].
Qed.

Lemma removeAll_length (cls : ascii -> bool) (s : string) :
  (String.length (removeAll cls s) <= String.length s)%nat.
Proof.
  induction s as [|c s IH]; cbn [removeAll String.length]; [lia|].
  destruct (cls c); cbn [String.length]; lia.
Qed.

Lemma removeAll_fixed (cls : ascii -> bool) (s : string) :
  removeAll cls s = s <-> allUnits (fun c => negb (cls c)) s = true.
Proof.
  induction s as [|c s IH]; cbn [removeAll allUnits]; [tauto|].
  destruct (cls c) eqn:E; cbn [negb andb].
  - split; [|discriminate]. intros H.
    pose proof (removeAll_length cls s) as L. rewrite H in L.
    cbn [String.length] in L. lia.
  - rewrite <- IH. split; [now intros [= ->] | now intros ->].
Qed.

Lemma toLowerCase_length (s : string) :
  String.length (toLowerCase s) = String.length s.
Proof. induction s as [|c s IH]; cbn [toLowerCase String.length]; congruence. Qed.

Lemma toLowerCase_fixed (s : string) :
  toLowerCase s = s <-> allUnits (fun c => negb (isUpperCase c)) s = true.
Proof.
  induction s as [|c s IH]; cbn [toLowerCase allUnits]; [tauto|].
  split.
  - intros [= C S]. apply lowerCodeUnit_fixed in C. rewrite C. now apply IH.
  - intros [C S]%andb_prop. apply negb_true_iff, lowerCodeUnit_fixed in C.
    apply IH in S. now rewrite C, S.
Qed.

(** On a title of the Latin-1 range: the key has none of the stripped
    code units and is never longer than the title; the titles that are
    their own key are those without an upper-case letter and without a
    stripped code unit. *)
Lemma normalizeCategoryKey_alphabet (title : string) :
  allUnits (fun c => negb (isStripped c)) (normalizeCategoryKey title) = true /\
  (String.length (normalizeCategoryKey title) <= String.length title)%nat /\
  (normalizeCategoryKey title = title <->
   allUnits (fun c => negb (isUpperCase c) && negb (isStripped c)) title = true).
Proof.
  rewrite normalizeCategoryKey_one_pass. split; [|split].
  - apply removeAll_fixed, removeAll_idempotent.
  - rewrite <- (toLowerCase_length title). apply removeAll_length.
  - split.
    + intros H.
      assert (L : String.length (removeAll isStripped (toLowerCase title)) =
                  String.length (toLowerCase title))
        by (rewrite H; symmetry; apply toLowerCase_length).
      assert (R : removeAll isStripped (toLowerCase title) = toLowerCase title).
      { clear H. revert L. generalize (toLowerCase title) as s.
        induction s as [|c s IH]; cbn [removeAll String.length]; [trivial|].
        destruct (isStripped c); cbn [String.length].
        - intros L. pose proof (removeAll_length isStripped s). lia.
        - intros [= L]. now rewrite IH. }
      rewrite R in H. rewrite H in R. apply toLowerCase_fixed in H.
      apply removeAll_fixed in R.
      clear - H R. induction title as [|c s IH]; [reflexivity|].
      cbn [allUnits] in *.
      apply andb_prop in H as [H1 H]. apply andb_prop in R as [R1 R].
      rewrite H1, R1. cbn [andb]. now apply IH.
    + intros H.
      assert (U : allUnits (fun c => negb (isUpperCase c)) title = true /\
                  allUnits (fun c => negb (isStripped c)) title = true).
      { clear - H. induction title as [|c s IH]; [now split|].
        cbn [allUnits] in *. apply andb_prop in H as [[H1 H2]%andb_prop H].
        rewrite H1, H2. cbn [andb]. now apply IH. }
      destruct U as [U S]. apply toLowerCase_fixed in U. rewrite U.
      now apply removeAll_fixed.
Qed.

Variable U : Utf16.Tables.

Lemma removeAll16_In (cls : N -> bool) (s : Utf16.t) (u : N) :
  In u (Utf16.removeAll cls s) <-> In u s /\ cls u = false.
Proof.
  unfold Utf16.removeAll. rewrite filter_In, negb_true_iff. reflexivity.
Qed.

(** X19. The key of a title, whatever its code units, has no white
    space, parenthesis or slash. For a title whose code units are all
    below U+0100 the key is never longer than the title, and the title is
    its own key exactly when it has no upper-case letter and no stripped
    code unit. The key of the title U+0130 is longer than the title: it
    is U+0069 U+0307. *)
Theorem normalizeCategoryKey_key_shape (title : Utf16.t) :
  Forall (fun u => Utf16.isStripped u = false) (Utf16.normalizeCategoryKey U title) /\
  (Utf16.isLatin1 title ->
   (length (Utf16.normalizeCategoryKey U title) <= length title)%nat /\
   (Utf16.normalizeCategoryKey U title = title <->
    Forall (fun u => negb (Utf16.isLatin1Upper u) && negb (Utf16.isStripped u) = true)
      title)) /\
  Utf16.normalizeCategoryKey U [0x130]%N = [0x69; 0x307]%N.
Proof.
  split; [|split].
  - apply List.Forall_forall. intros u I. unfold Utf16.normalizeCategoryKey in I.
    apply removeAll16_In in I as [I S]. apply removeAll16_In in I as [I P].
    apply removeAll16_In in I as [_ W].
    unfold Utf16.isStripped. now rewrite W, P, S.
  - intros [x ->]%isLatin1_widen. rewrite normalizeCategoryKey_widen.
    destruct (normalizeCategoryKey_alphabet x) as (_ & L & F).
    split; [now rewrite !widen_length|].
    rewrite (widen_Forall
               (fun u => negb (Utf16.isLatin1Upper u) && negb (Utf16.isStripped u))
               (fun c => negb (isUpperCase c) && negb (isStripped c))).
    + rewrite <- F. split; [apply widen_inj | now intros ->].
    + intros c. now rewrite isLatin1Upper_codeUnit, isStripped_codeUnit.
  - vm_compute. reflexivity.
Qed.

End KeyFacts.

Lemma normalizeCategoryKey_key_shape_witness :
  let title := Utf16.widen "wildfires" in
  Utf16.isLatin1 title /\
  Forall (fun u => negb (Utf16.isLatin1Upper u) && negb (Utf16.isStripped u) = true)
    title /\
  Utf16.normalizeCategoryKey Utf16.noFurtherEntries title = title.
Proof.
  intros title.
  assert (L : Utf16.isLatin1 title)
    by (repeat (constructor; [reflexivity|]); constructor).
  assert (F : Forall (fun u => negb (Utf16.isLatin1Upper u) &&
                               negb (Utf16.isStripped u) = true) title)
    by (repeat (constructor; [reflexivity|]); constructor).
  split; [exact L|]. split; [exact F|].
  exact (proj2 (proj2 (proj1 (proj2
           (normalizeCategoryKey_key_shape Utf16.noFurtherEntries title)) L)) F).
Defined.

(** ** The states at mount *)

Section MountFacts.

Lemma yearFromTime_four_digits (t : Z) :
  0 <= t < 253402300800000 -> 1970 <= yearFromTime t <= 9999.
Proof.
  intros H. unfold yearFromTime.
  destruct (civilFromDays (day t)) as [[y m] d] eqn:C.
  destruct (civilFromDays_inverse _ _ _ _ C) as (I & Hm & Hd).
  pose proof (daysInMonth_le_31 y m) as L.
  assert (D : 0 <= day t < 2932897).
  { unfold day, msPerDay. Z.div_mod_to_equations. lia. }
  unfold daysFromCivil in I. cbv zeta in I.
  destruct (m <=? 2) eqn:M1; [apply Z.leb_le in M1 | apply Z.leb_gt in M1];
    (destruct (2 <? m) eqn:M2; [apply Z.ltb_lt in M2 | apply Z.ltb_ge in M2]);
    try lia; Z.div_mod_to_equations; lia.
Qed.

(** X20. The date selected at mount names the UTC day before the clock
    of the initialiser, and the [max] of the date input names the UTC day
    of the clock of the render, both as well-formed YYYY-MM-DD strings.
    For a clock that does not run backwards, between 1970-01-02 and the
    year 9999, the date selected is before [max]: by one day when the two
    clock reads fall on the same UTC day, by more when a UTC midnight
    passes between them. The layer selected is one of [GIBS_LAYERS]. *)
Theorem initialState_date_before_max (now1 now2 : Z) :
  86400000 <= now1 -> now1 <= now2 -> now2 < 253402300800000 ->
  let st := NasaGibsMap.initialState now1 in
  parseDateOnly (NasaGibsMap.selectedDate st) = Some ((day now1 - 1) * msPerDay) /\
  parseDateOnly (NasaGibsMap.maxDate now2) = Some (day now2 * msPerDay) /\
  (day now1 - 1) * msPerDay < day now2 * msPerDay /\
  (day now1 = day now2 ->
   day now2 * msPerDay - (day now1 - 1) * msPerDay = msPerDay) /\
  (day now1 < day now2 ->
   day now2 * msPerDay - (day now1 - 1) * msPerDay >= 2 * msPerDay) /\
  In (NasaGibsMap.selectedLayer st) (map fst GIBS_LAYERS).
Proof.
  intros H1 H12 H2 st. unfold st, NasaGibsMap.initialState, NasaGibsMap.maxDate.
  cbn [NasaGibsMap.selectedDate NasaGibsMap.selectedLayer].
  unfold getYesterdayUtcDateString. rewrite yesterday_date by lia.
  assert (D12 : day now1 <= day now2)
    by (unfold day, msPerDay; Z.div_mod_to_equations; lia).
  split; [|split; [|split; [|split; [|split]]]].
  - rewrite formatDateForGibs_parsed.
    + now rewrite day_of_midnight.
    + pose proof (yearFromTime_four_digits ((day now1 - 1) * msPerDay)) as Y.
      assert (D : 0 <= day now1 * msPerDay <= now1)
        by (unfold day, msPerDay in *; Z.div_mod_to_equations; lia).
      assert (D1 : 1 <= day now1)
        by (unfold day, msPerDay in *; Z.div_mod_to_equations; lia).
      unfold msPerDay in *. lia.
  - apply formatDateForGibs_parsed.
    pose proof (yearFromTime_four_digits now2). lia.
  - unfold msPerDay. lia.
  - intros E. rewrite E. unfold msPerDay. lia.
  - intros E. unfold msPerDay. lia.
  - do 3 right. left. reflexivity.
Qed.

End MountFacts.

(** The component mounts one second before the UTC midnight that begins
    2024-01-01 and renders one second after it. *)
Lemma initialState_date_before_max_witness :
  86400000 <= 1704067199000 /\ 1704067199000 <= 1704067201000 /\
  1704067201000 < 253402300800000 /\
  NasaGibsMap.selectedDate (NasaGibsMap.initialState 1704067199000) = "2023-12-30" /\
  NasaGibsMap.maxDate 1704067201000 = "2024-01-01" /\
  parseDateOnly (NasaGibsMap.selectedDate (NasaGibsMap.initialState 1704067199000)) =
    Some ((day 1704067199000 - 1) * msPerDay) /\
  day 1704067201000 * msPerDay - (day 1704067199000 - 1) * msPerDay >= 2 * msPerDay.
Proof.
  assert (H1 : 86400000 <= 1704067199000) by lia.
  assert (H12 : 1704067199000 <= 1704067201000) by lia.
  assert (H2 : 1704067201000 < 253402300800000) by lia.
  assert (D : day 1704067199000 < day 1704067201000) by reflexivity.
  split; [exact H1|]. split; [exact H12|]. split; [exact H2|].
  split; [vm_compute; reflexivity|]. split; [vm_compute; reflexivity|].
  destruct (initialState_date_before_max 1704067199000 1704067201000 H1 H12 H2)
    as (S & _ & _ & _ & G & _).
  split; [exact S | exact (G D)].
Defined.
